(** * Matching and ranking engine of the job-matching backend

    A shallow embedding of [services/matching.py] (scoring engine, id-based
    services, ranking), of [routers/matching.py] (priority helpers and
    endpoints) and of [routers/job_postings.py], followed by the properties
    proved about them.

    Conventions of the embedding.
    - Python [float] values are idealised as exact rationals ([Q]); [round(x, 2)]
      is rounding to the nearest multiple of 1/100, ties to even. Binary64
      arithmetic may leave a computed factor a few units in the last place
      away from the exact value of its formula, which shows in the rounded
      entry where the exact value is half-way between two hundredths: the
      statements that relate a rounded entry to its factor allow for it
      ([rounded_from]).
    - Python [str] values are [string]s read as ASCII text; [str.split],
      [str.strip] and [str.lower] are given on that alphabet.
    - [date] values are proleptic ordinals in [Z], so [(a - b).days] is [a - b].
    - A [dict] built by successive assignments is an association list in
      insertion order; a [set] of tokens is a [gset string].
    - [list.sort] and a query's [order_by] are a stable insertion sort; any
      stable sort returns the same list.
    - The [name] columns of seekers, skills and tags are nullable, and a NULL
      name makes the construction of [CandidateData] or [JobData] raise. The
      embedding covers the rows without a NULL name, and the NULL title of a
      posting, which the router's own [_resolve_job_from_db] passes on; what
      a service or an endpoint answers is stated for the case where it
      answers. The commit of the session may raise. *)

From Stdlib Require Import ZArith QArith Qround Qminmax Qabs Lqa String Ascii Sorting Permutation.
From stdpp Require Import gmap strings list pretty.

(** ** Python primitives used by the source *)

Module Py.

Definition isspace (c : ascii) : bool :=
  let n := nat_of_ascii c in
  ((9 <=? n)%nat && (n <=? 13)%nat) || ((28 <=? n)%nat && (n <=? 32)%nat).

Definition flush (cur : string) : list string :=
  match cur with
  | EmptyString => []
  | _ => [cur]
  end.

(** [split_from cur s]: tokens of [s], [cur] being the token under construction. *)
Fixpoint split_from (cur : string) (s : string) : list string :=
  match s with
  | EmptyString => flush cur
  | String c s' =>
      if isspace c then flush cur ++ split_from EmptyString s'
      else split_from (cur +:+ String c EmptyString) s'
  end.

(** [s.split()] with no separator: maximal runs of non-whitespace. *)
Definition split (s : string) : list string := split_from EmptyString s.

Fixpoint lstrip (s : string) : string :=
  match s with
  | EmptyString => EmptyString
  | String c s' => if isspace c then lstrip s' else s
  end.

Definition reverse (s : string) : string :=
  string_of_list_ascii (rev (list_ascii_of_string s)).

Definition rstrip (s : string) : string := reverse (lstrip (reverse s)).

Definition strip (s : string) : string := rstrip (lstrip s).

Definition lower_char (c : ascii) : ascii :=
  let n := nat_of_ascii c in
  if ((65 <=? n)%nat && (n <=? 90)%nat) then ascii_of_nat (n + 32) else c.

Fixpoint lower (s : string) : string :=
  match s with
  | EmptyString => EmptyString
  | String c s' => String (lower_char c) (lower s')
  end.

(** [sep.join(l)] *)
Fixpoint join (sep : string) (l : list string) : string :=
  match l with
  | [] => EmptyString
  | [x] => x
  | x :: rest => x +:+ sep +:+ join sep rest
  end.

(** Truth value of a [str]. *)
Definition truthy (s : string) : bool :=
  match s with
  | EmptyString => false
  | _ => true
  end.

(** Nearest integer, ties to even. *)
Definition round_half_even (x : Q) : Z :=
  let f := Qfloor x in
  match ((x - inject_Z f) ?= (1 # 2))%Q with
  | Lt => f
  | Gt => (f + 1)%Z
  | Eq => if Z.even f then f else (f + 1)%Z
  end.

(** [round(x, ndigits)] *)
Definition round (x : Q) (ndigits : nat) : Q :=
  let scale := inject_Z (10 ^ Z.of_nat ndigits) in
  (inject_Z (round_half_even (x * scale)) / scale)%Q.

(** [sum(l)] on floats *)
Definition sum (l : list Q) : Q := fold_left Qplus l 0%Q.

(** [d[k] = v] on an insertion-ordered dict *)
Fixpoint dict_set {V} (k : string) (v : V) (d : list (string * V)) : list (string * V) :=
  match d with
  | [] => [(k, v)]
  | (k', v') :: d' =>
      if String.eqb k' k then (k', v) :: d' else (k', v') :: dict_set k v d'
  end.

(** [d.get(k)] *)
Fixpoint dict_get {V} (k : string) (d : list (string * V)) : option V :=
  match d with
  | [] => None
  | (k', v) :: d' => if String.eqb k' k then Some v else dict_get k d'
  end.

(** [l.index(x)], [None] standing for the [ValueError] of an absent element. *)
Fixpoint index (x : string) (l : list string) : option nat :=
  match l with
  | [] => None
  | y :: l' => if String.eqb y x then Some 0%nat else option_map S (index x l')
  end.

(** [x in l] *)
Definition contains (x : string) (l : list string) : bool :=
  existsb (String.eqb x) l.

Definition Qlt_bool (x y : Q) : bool := negb (Qle_bool y x).

End Py.

(** ** schemas.py *)

Definition date := Z.

Module CandidateData.
Record t := mk {
  name : string;
  desired_job : string;
  desired_location : string;
  desired_salary : Z;
  available_start_date : date;
  work_style_type : string;
  skills : list string;
  job_preference : string;
  experience_years : Q;
  preference_tags : list string;
  priority_order : list string
}.
End CandidateData.

Module JobData.
Record t := mk {
  job_title : string;
  job_location : string;
  salary : Z;
  availability_required : date;
  work_style_type : string;
  required_skills : list string;
  optional_skills : list string;
  culture_tags : list string;
  experience_required : option Q
}.
End JobData.

Record MatchResponse := {
  match_score : Q;
  message : string;
  breakdown : list (string * Q)
}.

Record MatchWithReasonResponse := {
  wr_match_score : Q;
  wr_message : string;
  wr_breakdown : list (string * Q);
  reason : string
}.

Record MatchRankingItem := {
  job_posting_id : Z;
  title : string;
  score : Q;
  item_breakdown : list (string * Q)
}.

Record MatchRankingResponse := {
  job_seeker_id : Z;
  results : list MatchRankingItem
}.

(** ** services/matching.py: similarity and scoring *)

(** The loaded SBERT model, when [_SBERT_AVAILABLE]: its cosine similarity on
    two texts. [None] is the disabled backend. *)
Definition SbertModel := option (string -> string -> Q).

Definition sbert_similarity (model : SbertModel) (text1 text2 : string) : Q :=
  match model with
  | Some cos_sim => cos_sim text1 text2
  | None =>
      let set1 : gset string := list_to_set (Py.split text1) in
      let set2 : gset string := list_to_set (Py.split text2) in
      if bool_decide (set1 = ∅) || bool_decide (set2 = ∅) then 0%Q
      else
        let inter := size (set1 ∩ set2) in
        let union := size (set1 ∪ set2) in
        (inject_Z (Z.of_nat inter) / inject_Z (Z.of_nat union))%Q
  end.

Definition calculate_weight (field : string) (priority_list : list string) : Q :=
  if negb (Py.contains field priority_list) then 1.0%Q
  else
    match Py.index field priority_list with
    | Some 0%nat => 1.5%Q
    | Some 1%nat => 1.3%Q
    | Some 2%nat => 1.1%Q
    | _ => 1.0%Q
    end.

(** The eight factors, before rounding, named after the locals of
    [match_score_logic]. *)

Definition skill_score (model : SbertModel) (candidate : CandidateData.t) (job : JobData.t) : Q :=
  let skills1 := Py.join " " (CandidateData.skills candidate) in
  let skills2 := Py.join " " (JobData.required_skills job ++ JobData.optional_skills job) in
  sbert_similarity model skills1 skills2.

Definition job_score (model : SbertModel) (candidate : CandidateData.t) (job : JobData.t) : Q :=
  sbert_similarity model (CandidateData.job_preference candidate) (JobData.job_title job).

Definition experience_score (candidate : CandidateData.t) (job : JobData.t) : Q :=
  if Py.Qlt_bool (CandidateData.experience_years candidate) 1%Q then 0.0%Q
  else
    match JobData.experience_required job with
    | None => 1.0%Q
    | Some required =>
        let gap := (required - CandidateData.experience_years candidate)%Q in
        if Qle_bool gap 0%Q then 1.0%Q
        else if Qle_bool gap 3%Q then (1.0 - gap / 6.0)%Q
        else 0.5%Q
    end.

Definition location_score (candidate : CandidateData.t) (job : JobData.t) : Q :=
  if String.eqb (CandidateData.desired_location candidate) (JobData.job_location job)
  then 1.0%Q else 0.0%Q.

Definition salary_score (candidate : CandidateData.t) (job : JobData.t) : Q :=
  let offer := JobData.salary job in
  if (offer <=? 0)%Z then 0.0%Q
  else
    let gap := Z.abs (CandidateData.desired_salary candidate - offer) in
    let salary_score := Qmax 0.0%Q (1.0 - inject_Z gap / 200.0)%Q in
    if (CandidateData.desired_salary candidate <=? offer)%Z
    then Qmin 1.0%Q (salary_score * 1.05)%Q
    else salary_score.

Definition preference_score (model : SbertModel) (candidate : CandidateData.t) (job : JobData.t) : Q :=
  let tags1 := Py.join " " (CandidateData.preference_tags candidate) in
  let tags2 := Py.join " " (JobData.culture_tags job) in
  if Py.truthy tags1 && Py.truthy tags2 then sbert_similarity model tags1 tags2 else 0.0%Q.

Definition days_diff (candidate : CandidateData.t) (job : JobData.t) : Z :=
  (JobData.availability_required job - CandidateData.available_start_date candidate)%Z.

Definition avail_score (candidate : CandidateData.t) (job : JobData.t) : Q :=
  let d := days_diff candidate job in
  if (d <=? 30)%Z then 1.0%Q else if (d <=? 90)%Z then 0.7%Q else 0.3%Q.

Definition work_score (model : SbertModel) (candidate : CandidateData.t) (job : JobData.t) : Q :=
  if Py.truthy (CandidateData.work_style_type candidate) && Py.truthy (JobData.work_style_type job)
  then sbert_similarity model (CandidateData.work_style_type candidate) (JobData.work_style_type job)
  else 0.0%Q.

(** The [breakdown] dict as it stands when the weighting loop starts. *)
Definition score_breakdown (model : SbertModel) (candidate : CandidateData.t) (job : JobData.t)
  : list (string * Q) :=
  let breakdown := [] in
  let breakdown := Py.dict_set "skill_score" (Py.round (skill_score model candidate job) 2) breakdown in
  let breakdown := Py.dict_set "job_title_score" (Py.round (job_score model candidate job) 2) breakdown in
  let breakdown := Py.dict_set "experience_score" (Py.round (experience_score candidate job) 2) breakdown in
  let breakdown := Py.dict_set "location_score" (location_score candidate job) breakdown in
  let breakdown := Py.dict_set "salary_score" (Py.round (Qmin (salary_score candidate job) 1.0%Q) 2) breakdown in
  let breakdown := Py.dict_set "preference_score" (Py.round (preference_score model candidate job) 2) breakdown in
  let breakdown := Py.dict_set "availability_score" (Py.round (avail_score candidate job) 2) breakdown in
  let breakdown := Py.dict_set "work_style_score" (Py.round (work_score model candidate job) 2) breakdown in
  breakdown.

(** The weighting loop: the pair ([weighted_scores], [weights]). *)
Fixpoint weigh (items : list (string * Q)) (priority_list : list string) : list Q * list Q :=
  match items with
  | [] => ([], [])
  | (field, value) :: rest =>
      let w := calculate_weight field priority_list in
      let '(weighted_scores, weights) := weigh rest priority_list in
      ((value * w)%Q :: weighted_scores, w :: weights)
  end.

Definition total_of (items : list (string * Q)) (priority_list : list string) : Q :=
  let '(weighted_scores, weights) := weigh items priority_list in
  ((match weights with
    | [] => 0.0
    | _ => Py.sum weighted_scores / Py.sum weights
    end) * 100)%Q.

(** [match_score_logic]. The weights are read from [candidate.priority_order];
    the parameter [priority_order] does not occur in the body. *)
Definition match_score_logic (model : SbertModel) (candidate : CandidateData.t) (job : JobData.t)
    (priority_order : list string) : Q * list (string * Q) :=
  let breakdown := score_breakdown model candidate job in
  let total_score := total_of breakdown (CandidateData.priority_order candidate) in
  (Py.round total_score 2, breakdown).

(** Stable sort by insertion, [before y x] saying that [y] has to come
    strictly ahead of [x]. It stands for [list.sort] (with [reverse=True] when
    [before] compares downwards) and for a query's [order_by]; elements that
    neither has to precede keep their original order. *)
Fixpoint stable_insert {A} (before : A -> A -> bool) (x : A) (l : list A) : list A :=
  match l with
  | [] => [x]
  | y :: l' => if before y x then y :: stable_insert before x l' else x :: y :: l'
  end.

Fixpoint stable_sort {A} (before : A -> A -> bool) (l : list A) : list A :=
  match l with
  | [] => []
  | x :: l' => stable_insert before x (stable_sort before l')
  end.

(** ** models: the mapped classes, with the columns the services read

    The [name] columns, nullable in the models and required to be strings by
    the schemas, are kept as strings: the rows that the schemas reject, on
    which the services raise before they score, are outside the embedding. *)

Module Skill.
Record t := mk { id : Z; name : string }.
End Skill.

Module Tag.
Record t := mk { id : Z; name : string }.
End Tag.

Module JobPostingSkill.
Record t := mk { skill_id : Z; skill : option Skill.t; is_mandatory : option bool }.
End JobPostingSkill.

Module JobPostingTag.
Record t := mk { tag_id : Z; tag : option Tag.t }.
End JobPostingTag.

Module JobPosting.
Record t := mk {
  id : Z;
  title : option string;
  location : option string;
  salary : option Z;
  start_date : option date;
  work_style_type : option string;
  skills : list JobPostingSkill.t;
  tags : list JobPostingTag.t
}.
End JobPosting.

Module JobSeekerSkill.
Record t := mk { skill_id : Z; skill : option Skill.t }.
End JobSeekerSkill.

Module JobSeekerTag.
Record t := mk { tag_id : Z; tag : option Tag.t }.
End JobSeekerTag.

Module JobHistory.
Record t := mk { years_of_experience : option Z }.
End JobHistory.

Module JobSeekerPriority.
Record t := mk {
  id : Z;
  job_seeker_id : Z;
  priority_rank : option Z;
  priority_category : option string
}.
End JobSeekerPriority.

Module JobSeeker.
Record t := mk {
  id : Z;
  name : string;
  desired_job : option string;
  desired_location : option string;
  desired_salary : option Z;
  available_start_date : option date;
  work_style_type : option string;
  skills : list JobSeekerSkill.t;
  tags : list JobSeekerTag.t;
  histories : list JobHistory.t
}.
End JobSeeker.

Module MatchingScore.
Record t := mk {
  job_seeker_id : Z;
  job_posting_id : Z;
  score : Q;
  breakdown : list (string * Q);
  explanation : option string
}.
End MatchingScore.

(** ** The database session *)

Inductive Exception :=
| ValueError (msg : string)
| DatabaseError (msg : string).

Inductive result (A : Type) :=
| Ok (a : A)
| Raise (e : Exception).
Arguments Ok {A} a.
Arguments Raise {A} e.

Record Session := {
  job_seekers : list JobSeeker.t;
  job_postings : list JobPosting.t;
  job_seeker_priorities : list JobSeekerPriority.t;
  matching_scores : list MatchingScore.t;
  pending : list MatchingScore.t
}.

(** [db.get(JobSeeker, id)] *)
Definition get_job_seeker (db : Session) (seeker_id : Z) : option JobSeeker.t :=
  List.find (fun s => (JobSeeker.id s =? seeker_id)%Z) (job_seekers db).

(** [db.get(JobPosting, id)] *)
Definition get_job_posting (db : Session) (job_id : Z) : option JobPosting.t :=
  List.find (fun j => (JobPosting.id j =? job_id)%Z) (job_postings db).

(** [db.add(obj)] *)
Definition db_add (obj : MatchingScore.t) (db : Session) : Session :=
  {| job_seekers := job_seekers db;
     job_postings := job_postings db;
     job_seeker_priorities := job_seeker_priorities db;
     matching_scores := matching_scores db;
     pending := pending db ++ [obj] |}.

(** [db.rollback()] *)
Definition db_rollback (db : Session) : Session :=
  {| job_seekers := job_seekers db;
     job_postings := job_postings db;
     job_seeker_priorities := job_seeker_priorities db;
     matching_scores := matching_scores db;
     pending := [] |}.

(** [db.commit()]: [commit_error] is the verdict of the storage backend on the
    flush of the session; when it names an exception, the commit raises it. *)
Definition db_commit (commit_error : Session -> option Exception) (db : Session)
  : result unit * Session :=
  match commit_error db with
  | Some e => (Raise e, db)
  | None =>
      (Ok tt,
       {| job_seekers := job_seekers db;
          job_postings := job_postings db;
          job_seeker_priorities := job_seeker_priorities db;
          matching_scores := matching_scores db ++ pending db;
          pending := [] |})
  end.

(** ** routers/matching.py: priority codes *)

Definition aliases : list (string * string) :=
  [ ("skill", "skill_score");
    ("skills", "skill_score");
    ("skill_score", "skill_score");
    ("job_title", "job_title_score");
    ("title", "job_title_score");
    ("job_title_score", "job_title_score");
    ("salary", "salary_score");
    ("comp", "salary_score");
    ("compensation", "salary_score");
    ("salary_score", "salary_score");
    ("location", "location_score");
    ("place", "location_score");
    ("location_score", "location_score");
    ("availability", "availability_score");
    ("start_date", "availability_score");
    ("availability_required", "availability_score");
    ("availability_score", "availability_score");
    ("work_style", "work_style_score");
    ("workstyle", "work_style_score");
    ("work_style_type", "work_style_score");
    ("work_style_score", "work_style_score");
    ("preference", "preference_score");
    ("culture", "preference_score");
    ("tags", "preference_score");
    ("preference_score", "preference_score");
    ("experience", "experience_score");
    ("years", "experience_score");
    ("experience_required", "experience_score");
    ("experience_score", "experience_score") ]%string.

Definition _normalize_priority_code (raw : option string) : option string :=
  match raw with
  | None => None
  | Some raw =>
      if negb (Py.truthy raw) then None
      else
        let code := Py.lower (Py.strip raw) in
        Py.dict_get code aliases
  end.

Definition default_priority_order : list string :=
  ["skill_score"; "job_title_score"; "salary_score"]%string.

(** The object behind [r.category], with its [code] attribute: [None] when the
    object has no such attribute, [Some None] when it holds [None]. *)
Module Category.
Record t := mk { code : option (option string) }.
End Category.

(** What [_fetch_priority_order] asks of the mapped class of the priority
    rows. The function probes by name, on the class for a column to order by
    and on each row for the attribute holding the code; an attribute that the
    class does not have is [None] here ([getattr(cls, name, None)] yields
    [None], [hasattr(r, name)] is [False]). [id] and [job_seeker_id] are used
    without a probe. *)
Class PriorityRow (T : Type) := {
  col_priority_order : option (T -> Z);
  col_rank : option (T -> Z);
  col_sort_order : option (T -> Z);
  col_id : T -> Z;
  col_job_seeker_id : T -> Z;
  attr_matching_field : T -> option (option string);
  attr_category_code : T -> option (option string);
  attr_category : T -> option (option Category.t)
}.

(** [hasattr(r, name) and r.name], for an attribute holding a string or [None]. *)
Definition probe (a : option (option string)) : option string :=
  match a with
  | Some (Some s) => if Py.truthy s then Some s else None
  | _ => None
  end.

(** [a or b] on class attributes fetched with a [None] default; an attribute
    that exists is a mapped column, which is truthy. *)
Definition py_or {A} (a b : option A) : option A :=
  match a with
  | Some _ => a
  | None => b
  end.

Definition order_by_column {T} `{PriorityRow T} : T -> Z :=
  match py_or col_priority_order (py_or col_rank col_sort_order) with
  | Some column => column
  | None => col_id
  end.

(** The query of [_fetch_priority_order]: the rows of the seeker, ordered by
    the chosen column (rows that tie on it stay in table order). *)
Definition query_priorities {T} `{PriorityRow T} (table : list T) (seeker_id : Z) : list T :=
  stable_sort (fun y x => (order_by_column y <? order_by_column x)%Z)
    (List.filter (fun r => (col_job_seeker_id r =? seeker_id)%Z) table).

Definition raw_code_of {T} `{PriorityRow T} (r : T) : option string :=
  match probe (attr_matching_field r) with
  | Some raw_code => Some raw_code
  | None =>
      match probe (attr_category_code r) with
      | Some raw_code => Some raw_code
      | None =>
          match attr_category r with
          | Some (Some cat) => probe (Category.code cat)
          | _ => None
          end
      end
  end.

(** One turn of the loop over [rows]. *)
Definition collect_priority {T} `{PriorityRow T} (order : list string) (r : T) : list string :=
  match _normalize_priority_code (raw_code_of r) with
  | Some normalized =>
      if Py.truthy normalized && negb (Py.contains normalized order)
      then order ++ [normalized]
      else order
  | None => order
  end.

Definition _fetch_priority_order {T} `{PriorityRow T} (table : list T) (seeker_id : Z)
  : list string :=
  let rows := query_priorities table seeker_id in
  let order := fold_left collect_priority rows [] in
  match order with
  | [] => default_priority_order
  | _ => order
  end.

(** The mapped class of this repository, [models.JobSeekerPriority]: columns
    [id], [job_seeker_id], [priority_rank], [priority_category]. None of the
    probed names is among them. *)
#[export] Instance JobSeekerPriority_row : PriorityRow JobSeekerPriority.t := {|
  col_priority_order := None;
  col_rank := None;
  col_sort_order := None;
  col_id := JobSeekerPriority.id;
  col_job_seeker_id := JobSeekerPriority.job_seeker_id;
  attr_matching_field := fun _ => None;
  attr_category_code := fun _ => None;
  attr_category := fun _ => None
|}.

(** A mapped class of the shape the probing looks for: an explicit [rank]
    column and the code in [category_code]. *)
Module RankedPriority.
Record t := mk { id : Z; job_seeker_id : Z; rank : Z; category_code : option string }.
End RankedPriority.

#[export] Instance RankedPriority_row : PriorityRow RankedPriority.t := {|
  col_priority_order := None;
  col_rank := Some RankedPriority.rank;
  col_sort_order := None;
  col_id := RankedPriority.id;
  col_job_seeker_id := RankedPriority.job_seeker_id;
  attr_matching_field := fun _ => None;
  attr_category_code := fun r => Some (RankedPriority.category_code r);
  attr_category := fun _ => None
|}.

(** ** services/matching.py: rows to schema values, and the services *)

(** [x or d] on a nullable column *)
Definition or_default {A} (x : option A) (d : A) : A :=
  match x with
  | Some v => v
  | None => d
  end.

(** [s or ""]: an empty string is falsy as well, with the same outcome. *)
Definition or_empty (s : option string) : string := or_default s EmptyString.

Section Services.

(** The collaborators of the services: the similarity backend, the clock
    ([date.today()]), [str] of a float inside an f-string, the explanation
    generator, and the storage backend's verdict on a commit. *)
Variable model : SbertModel.
Variable today : date.
Variable float_str : Q -> string.
Variable generate_match_reason : string -> string.
Variable commit_error : Session -> option Exception.

Definition job_skill_name (link : JobPostingSkill.t) : string :=
  match JobPostingSkill.skill link with
  | Some skill => Skill.name skill
  | None => "skill_" +:+ pretty (JobPostingSkill.skill_id link)
  end.

(** One turn of the loop over [job.skills], on the pair
    ([required_skill_names], [optional_skill_names]). *)
Definition collect_skill (names : list string * list string) (link : JobPostingSkill.t)
  : list string * list string :=
  let '(required_skill_names, optional_skill_names) := names in
  let name := job_skill_name link in
  if or_default (JobPostingSkill.is_mandatory link) false
  then (required_skill_names ++ [name], optional_skill_names)
  else (required_skill_names, optional_skill_names ++ [name]).

Definition resolve_job_from_db (job : JobPosting.t) : JobData.t :=
  let '(required_skill_names, optional_skill_names) :=
    fold_left collect_skill (JobPosting.skills job) ([], []) in
  let culture_tags :=
    List.map (fun t =>
      match JobPostingTag.tag t with
      | Some tag => Tag.name tag
      | None => "tag_" +:+ pretty (JobPostingTag.tag_id t)
      end) (JobPosting.tags job) in
  {| JobData.job_title := or_empty (JobPosting.title job);
     JobData.job_location := or_empty (JobPosting.location job);
     JobData.salary := or_default (JobPosting.salary job) 0%Z;
     JobData.availability_required := or_default (JobPosting.start_date job) today;
     JobData.work_style_type := or_empty (JobPosting.work_style_type job);
     JobData.required_skills := required_skill_names;
     JobData.optional_skills := optional_skill_names;
     JobData.culture_tags := culture_tags;
     JobData.experience_required := None |}.

Definition resolve_candidate_from_db (seeker : JobSeeker.t) : CandidateData.t :=
  let skill_names :=
    List.map (fun s =>
      match JobSeekerSkill.skill s with
      | Some skill => Skill.name skill
      | None => "skill_" +:+ pretty (JobSeekerSkill.skill_id s)
      end) (JobSeeker.skills seeker) in
  let tag_names :=
    List.map (fun t =>
      match JobSeekerTag.tag t with
      | Some tag => Tag.name tag
      | None => "tag_" +:+ pretty (JobSeekerTag.tag_id t)
      end) (JobSeeker.tags seeker) in
  let total_years :=
    fold_left (fun total_years h =>
      (total_years + inject_Z (or_default (JobHistory.years_of_experience h) 0%Z))%Q)
      (JobSeeker.histories seeker) 0.0%Q in
  let priority_order := ["skill_score"; "job_title_score"; "salary_score"]%string in
  {| CandidateData.name := JobSeeker.name seeker;
     CandidateData.desired_job := or_empty (JobSeeker.desired_job seeker);
     CandidateData.desired_location := or_empty (JobSeeker.desired_location seeker);
     CandidateData.desired_salary := or_default (JobSeeker.desired_salary seeker) 0%Z;
     CandidateData.available_start_date := or_default (JobSeeker.available_start_date seeker) today;
     CandidateData.work_style_type := or_empty (JobSeeker.work_style_type seeker);
     CandidateData.skills := skill_names;
     CandidateData.job_preference := or_empty (JobSeeker.desired_job seeker);
     CandidateData.experience_years := total_years;
     CandidateData.preference_tags := tag_names;
     CandidateData.priority_order := priority_order |}.

(** The sibling of [resolve_candidate_from_db] in routers/matching.py, used by
    the router's own [/by-id] endpoints: it reads the priority order from the
    priority rows. *)
Definition _resolve_candidate_from_db (seeker : JobSeeker.t) (db : Session) : CandidateData.t :=
  let skills :=
    List.map (fun s => "skill_" +:+ pretty (JobSeekerSkill.skill_id s)) (JobSeeker.skills seeker) in
  let tags :=
    List.map (fun t => "tag_" +:+ pretty (JobSeekerTag.tag_id t)) (JobSeeker.tags seeker) in
  let priority_order := _fetch_priority_order (job_seeker_priorities db) (JobSeeker.id seeker) in
  {| CandidateData.name := JobSeeker.name seeker;
     CandidateData.desired_job := or_empty (JobSeeker.desired_job seeker);
     CandidateData.desired_location := or_empty (JobSeeker.desired_location seeker);
     CandidateData.desired_salary := or_default (JobSeeker.desired_salary seeker) 0%Z;
     CandidateData.available_start_date := or_default (JobSeeker.available_start_date seeker) today;
     CandidateData.work_style_type := or_empty (JobSeeker.work_style_type seeker);
     CandidateData.skills := skills;
     CandidateData.job_preference := or_empty (JobSeeker.desired_job seeker);
     CandidateData.experience_years := 0.0%Q;
     CandidateData.preference_tags := tags;
     CandidateData.priority_order := priority_order |}.

Definition match_message (candidate : CandidateData.t) (jobdata : JobData.t) (total_score : Q)
  : string :=
  CandidateData.name candidate +:+ "さんは「" +:+ JobData.job_title jobdata +:+ "」に"
    +:+ float_str total_score +:+ "%マッチしています。".

(** The [try: db.add(...); db.commit() except Exception: db.rollback()] block. *)
Definition try_persist (record : MatchingScore.t) (db : Session) : Session :=
  let db := db_add record db in
  match db_commit commit_error db with
  | (Ok _, db) => db
  | (Raise _, db) => db_rollback db
  end.

Definition match_by_id_service (seeker_id job_id : Z) (db : Session)
  : result MatchResponse * Session :=
  match get_job_seeker db seeker_id, get_job_posting db job_id with
  | Some seeker, Some job =>
      let candidate := resolve_candidate_from_db seeker in
      let jobdata := resolve_job_from_db job in
      let '(total_score, details) :=
        match_score_logic model candidate jobdata (CandidateData.priority_order candidate) in
      let db :=
        try_persist
          {| MatchingScore.job_seeker_id := JobSeeker.id seeker;
             MatchingScore.job_posting_id := JobPosting.id job;
             MatchingScore.score := total_score;
             MatchingScore.breakdown := details;
             MatchingScore.explanation := None |} db in
      let msg := match_message candidate jobdata total_score in
      (Ok {| match_score := total_score; message := msg; breakdown := details |}, db)
  | _, _ => (Raise (ValueError "job_seeker or job_posting not found"), db)
  end.

Definition match_by_id_with_reason_service (seeker_id job_id : Z) (db : Session)
  : result MatchWithReasonResponse * Session :=
  match get_job_seeker db seeker_id, get_job_posting db job_id with
  | Some seeker, Some job =>
      let candidate := resolve_candidate_from_db seeker in
      let jobdata := resolve_job_from_db job in
      let '(total_score, details) :=
        match_score_logic model candidate jobdata (CandidateData.priority_order candidate) in
      let msg := match_message candidate jobdata total_score in
      let user_info :=
        CandidateData.name candidate +:+ "さんは" +:+ CandidateData.desired_location candidate
          +:+ "希望、働き方は" +:+ CandidateData.work_style_type candidate +:+ "。"
          +:+ "経験年数は" +:+ float_str (CandidateData.experience_years candidate) +:+ "年。スキル: "
          +:+ Py.join ", " (CandidateData.skills candidate) +:+ "。"
          +:+ "応募ポジション: " +:+ JobData.job_title jobdata +:+ "。" in
      let reason_text := generate_match_reason user_info in
      let db :=
        try_persist
          {| MatchingScore.job_seeker_id := JobSeeker.id seeker;
             MatchingScore.job_posting_id := JobPosting.id job;
             MatchingScore.score := total_score;
             MatchingScore.breakdown := details;
             MatchingScore.explanation := Some reason_text |} db in
      (Ok {| wr_match_score := total_score;
             wr_message := msg;
             wr_breakdown := details;
             reason := reason_text |}, db)
  | _, _ => (Raise (ValueError "job_seeker or job_posting not found"), db)
  end.

(** The loop of [rank_jobs_for_seeker_service] building [scored]. *)
Definition score_job (candidate : CandidateData.t) (job : JobPosting.t) : MatchRankingItem :=
  let jobdata := resolve_job_from_db job in
  let '(score, breakdown) :=
    match_score_logic model candidate jobdata (CandidateData.priority_order candidate) in
  {| job_posting_id := JobPosting.id job;
     title := or_empty (JobPosting.title job);
     score := score;
     item_breakdown := breakdown |}.

(** [scored.sort(key=lambda x: x.score, reverse=True)] *)
Definition sort_by_score_desc (scored : list MatchRankingItem) : list MatchRankingItem :=
  stable_sort (fun y x => Py.Qlt_bool (score x) (score y)) scored.

Definition rank_jobs_for_seeker_service (seeker_id : Z) (db : Session) (top_k : Z)
  : result MatchRankingResponse :=
  match get_job_seeker db seeker_id with
  | None => Raise (ValueError "job_seeker not found")
  | Some seeker =>
      let candidate := resolve_candidate_from_db seeker in
      let jobs := job_postings db in
      let scored := List.map (score_job candidate) jobs in
      let scored := sort_by_score_desc scored in
      let results := firstn (Z.to_nat (Z.max 1 top_k)) scored in
      Ok {| job_seeker_id := seeker_id; results := results |}
  end.

End Services.

(** ** Reference definitions

    The definitions worded after the specification, against which the code
    is compared, and the predicates the statements use. *)

(** The weight of a factor as the specification words it: by the place of the
    factor among the first three entries of the priority order. *)
Definition weight_by_position (factor : string) (priority_order : list string) : Q :=
  if bool_decide (priority_order !! 0%nat = Some factor) then 1.5%Q
  else if bool_decide (priority_order !! 1%nat = Some factor) then 1.3%Q
  else if bool_decide (priority_order !! 2%nat = Some factor) then 1.1%Q
  else 1.0%Q.

(** The sum of value * weight over the entries of a breakdown. *)
Definition weighted_sum (breakdown : list (string * Q)) (priority_order : list string) : Q :=
  Py.sum (List.map (fun kv => (snd kv * weight_by_position (fst kv) priority_order)%Q) breakdown).

(** The sum of the weights of the entries of a breakdown. *)
Definition weight_sum (breakdown : list (string * Q)) (priority_order : list string) : Q :=
  Py.sum (List.map (fun kv => weight_by_position (fst kv) priority_order) breakdown).

(** round(100 * sum(value * weight) / sum(weight), 2), and 0 when the weights
    sum to zero. *)
Definition claimed_total (breakdown : list (string * Q)) (priority_order : list string) : Q :=
  if Qeq_bool (weight_sum breakdown priority_order) 0 then 0%Q
  else Py.round (100 * weighted_sum breakdown priority_order / weight_sum breakdown priority_order) 2.

(** The similarity collaborator answers within [0,1]. *)
Definition model_in_unit (model : SbertModel) : Prop :=
  forall cos_sim, model = Some cos_sim -> forall a b, (0 <= cos_sim a b <= 1)%Q.

(** The eight keys of a breakdown, in insertion order. *)
Definition factor_keys : list string :=
  ["skill_score"; "job_title_score"; "experience_score"; "location_score";
   "salary_score"; "preference_score"; "availability_score"; "work_style_score"]%string.

(** The factor values in the order of the keys. *)
Definition factor_values (model : SbertModel) (candidate : CandidateData.t) (job : JobData.t)
  : list Q :=
  [ skill_score model candidate job;
    job_score model candidate job;
    experience_score candidate job;
    location_score candidate job;
    salary_score candidate job;
    preference_score model candidate job;
    avail_score candidate job;
    work_score model candidate job ].

(** [candidate] with another priority order. *)
Definition with_priority_order (candidate : CandidateData.t) (order : list string)
  : CandidateData.t :=
  {| CandidateData.name := CandidateData.name candidate;
     CandidateData.desired_job := CandidateData.desired_job candidate;
     CandidateData.desired_location := CandidateData.desired_location candidate;
     CandidateData.desired_salary := CandidateData.desired_salary candidate;
     CandidateData.available_start_date := CandidateData.available_start_date candidate;
     CandidateData.work_style_type := CandidateData.work_style_type candidate;
     CandidateData.skills := CandidateData.skills candidate;
     CandidateData.job_preference := CandidateData.job_preference candidate;
     CandidateData.experience_years := CandidateData.experience_years candidate;
     CandidateData.preference_tags := CandidateData.preference_tags candidate;
     CandidateData.priority_order := order |}.

(** [may_precede before a b]: [b] does not have to come ahead of [a]. *)
Definition may_precede {A} (before : A -> A -> bool) (a b : A) : Prop := before b a = false.

(** [no_worse a b]: [a] scores at least as much as [b]. *)
Definition no_worse (a b : MatchRankingItem) : Prop := (score b <= score a)%Q.

(** How far binary64 arithmetic may carry a factor from the exact value of
    its formula: far more than the few units in the last place that the
    operations of a factor add up to, far less than a hundredth. *)
Definition float_tolerance : Q := 1 # 1000000000.

(** [rounded_from value entry]: [entry] is a factor rounded to two decimals,
    the factor being [value] as the code computes it, within
    [float_tolerance] of the exact [value]. Where the exact value is half-way
    between two hundredths, the hundredth taken is the one the computed value
    rounds to. *)
Definition rounded_from (value entry : Q) : Prop :=
  exists computed,
    (Qabs (computed - value) <= float_tolerance)%Q /\ (entry == Py.round computed 2)%Q.

(** A storage backend that accepts every commit. *)
Definition commit_succeeds : Session -> option Exception := fun _ => None.

(** A storage backend that refuses every commit. *)
Definition commit_fails : Session -> option Exception :=
  fun _ => Some (DatabaseError "connection lost").


(** Deduplication that keeps the first occurrence of every entry. *)
Fixpoint keep_first (l : list string) : list string :=
  match l with
  | [] => []
  | x :: l' => x :: List.filter (fun y => negb (String.eqb y x)) (keep_first l')
  end.

(** The priority order as the specification words it, from the raw codes of
    the rows in ascending rank: normalise each code, drop the absent ones,
    keep the first occurrence of each key, and fall back to the default order
    when nothing is left. *)
Definition build_priority_order (raw_codes : list (option string)) : list string :=
  match keep_first (omap _normalize_priority_code raw_codes) with
  | [] => default_priority_order
  | order => order
  end.

(** The rows of a seeker in [job_seeker_priorities], by ascending
    [priority_rank] (by [id] for a row without rank), and the order the
    specification builds from their [priority_category]. *)
Definition rank_key (r : JobSeekerPriority.t) : Z :=
  or_default (JobSeekerPriority.priority_rank r) (JobSeekerPriority.id r).

Definition stored_priority_order (table : list JobSeekerPriority.t) (seeker_id : Z) : list string :=
  build_priority_order
    (List.map JobSeekerPriority.priority_category
       (stable_sort (fun y x => (rank_key y <? rank_key x)%Z)
          (List.filter (fun r => (JobSeekerPriority.job_seeker_id r =? seeker_id)%Z) table))).

(** ** Sample data *)

Definition sample_candidate (years : Q) (desired : Z) (start : date) (priorities : list string)
  : CandidateData.t :=
  {| CandidateData.name := "Sato";
     CandidateData.desired_job := "backend engineer";
     CandidateData.desired_location := "Tokyo";
     CandidateData.desired_salary := desired;
     CandidateData.available_start_date := start;
     CandidateData.work_style_type := "remote";
     CandidateData.skills := ["python"; "sql"]%string;
     CandidateData.job_preference := "backend engineer";
     CandidateData.experience_years := years;
     CandidateData.preference_tags := ["flat"]%string;
     CandidateData.priority_order := priorities |}.

Definition sample_job (offer : Z) (start : date) (required : option Q) : JobData.t :=
  {| JobData.job_title := "backend engineer";
     JobData.job_location := "Osaka";
     JobData.salary := offer;
     JobData.availability_required := start;
     JobData.work_style_type := "remote";
     JobData.required_skills := ["python"]%string;
     JobData.optional_skills := ["sql"]%string;
     JobData.culture_tags := ["flat"; "open"]%string;
     JobData.experience_required := required |}.

Definition sample_seeker : JobSeeker.t :=
  {| JobSeeker.id := 1;
     JobSeeker.name := "Sato";
     JobSeeker.desired_job := Some "backend engineer"%string;
     JobSeeker.desired_location := Some "Tokyo"%string;
     JobSeeker.desired_salary := Some 500%Z;
     JobSeeker.available_start_date := Some 100%Z;
     JobSeeker.work_style_type := Some "remote"%string;
     JobSeeker.skills := [ JobSeekerSkill.mk 1 (Some (Skill.mk 1 "python")) ];
     JobSeeker.tags := [];
     JobSeeker.histories := [ JobHistory.mk (Some 5%Z) ] |}.

Definition sample_posting (id : Z) (title location : string) (offer : Z) : JobPosting.t :=
  {| JobPosting.id := id;
     JobPosting.title := Some title;
     JobPosting.location := Some location;
     JobPosting.salary := Some offer;
     JobPosting.start_date := Some 110%Z;
     JobPosting.work_style_type := Some "remote"%string;
     JobPosting.skills := [ JobPostingSkill.mk 1 (Some (Skill.mk 1 "python")) (Some true) ];
     JobPosting.tags := [] |}.

Definition sample_db (postings : list JobPosting.t) (priorities : list JobSeekerPriority.t)
  : Session :=
  {| job_seekers := [sample_seeker];
     job_postings := postings;
     job_seeker_priorities := priorities;
     matching_scores := [];
     pending := [] |}.

Definition sample_catalog : list JobPosting.t :=
  [ sample_posting 10 "frontend designer" "Osaka" 300;
    sample_posting 11 "backend engineer" "Tokyo" 500;
    sample_posting 12 "frontend designer" "Osaka" 300;
    sample_posting 13 "backend engineer" "Osaka" 500 ].

Definition sample_priorities : list JobSeekerPriority.t :=
  [ JobSeekerPriority.mk 1 1 (Some 2%Z) (Some "skill"%string);
    JobSeekerPriority.mk 2 1 (Some 1%Z) (Some "Location"%string);
    JobSeekerPriority.mk 3 1 (Some 3%Z) (Some "Skills"%string);
    JobSeekerPriority.mk 4 2 (Some 1%Z) (Some "comp"%string) ].

(** A rendering of floats for the examples: numerator and denominator. *)
Definition sample_float_str (x : Q) : string :=
  pretty (Qnum (Qred x)) +:+ "/" +:+ pretty (Zpos (Qden (Qred x))).

(** An explanation generator for the examples. *)
Definition sample_reason (user_info : string) : string := "reason: " +:+ user_info.

(** ** routers: the endpoints

    What an endpoint hands back to the framework: a response body, an
    [HTTPException] it raised itself, or an exception it let through. *)

Inductive http (A : Type) :=
| Respond (body : A)
| HTTPException (status_code : Z) (detail : string)
| Unhandled (e : Exception).
Arguments Respond {A} body.
Arguments HTTPException {A} status_code detail.
Arguments Unhandled {A} e.

(** [s or d] on a nullable string column: [None] and the empty string both
    give way to [d]. *)
Definition or_str (s : option string) (d : string) : string :=
  match s with
  | Some v => if Py.truthy v then v else d
  | None => d
  end.

(** [n or d] on a nullable integer: [None] and 0 both give way to [d]. *)
Definition or_int (n : option Z) (d : Z) : Z :=
  match n with
  | Some v => if (v =? 0)%Z then d else v
  | None => d
  end.

Module MatchRankingRequest.
Record t := mk { job_seeker_id : Z; top_k : Z }.
End MatchRankingRequest.

Module MatchByIdRequest.
Record t := mk { job_seeker_id : Z; job_posting_id : Z }.
End MatchByIdRequest.

Module MatchRequest.
Record t := mk { candidate : CandidateData.t; job : JobData.t }.
End MatchRequest.

(** The dict of [routers.matching._resolve_job_from_db]: [job_title] is the
    column as it is, with no default. *)
Module JobDict.
Record t := mk {
  job_title : option string;
  job_location : string;
  salary : Z;
  availability_required : date;
  work_style_type : string;
  required_skills : list string;
  optional_skills : list string;
  culture_tags : list string;
  experience_required : option Q
}.
End JobDict.

(** [JobData] built from the dict: the schema wants a string for
    [job_title]; the [ValidationError] raised otherwise is a [ValueError]. *)
Definition JobData_of_dict (d : JobDict.t) : result JobData.t :=
  match JobDict.job_title d with
  | Some job_title =>
      Ok {| JobData.job_title := job_title;
            JobData.job_location := JobDict.job_location d;
            JobData.salary := JobDict.salary d;
            JobData.availability_required := JobDict.availability_required d;
            JobData.work_style_type := JobDict.work_style_type d;
            JobData.required_skills := JobDict.required_skills d;
            JobData.optional_skills := JobDict.optional_skills d;
            JobData.culture_tags := JobDict.culture_tags d;
            JobData.experience_required := JobDict.experience_required d |}
  | None => Raise (ValueError "job_title: Input should be a valid string")
  end.

(** The company behind [jp.company], with the two columns [rank_ui] reads. *)
Module Company.
Record t := mk { name : option string; industry : option string }.
End Company.

(** One entry of ["matchedJobs"] in the answer of [rank_ui]. *)
Module MatchedJob.
Record t := mk {
  id : Z;
  company_name : string;
  company_industry : string;
  company_location : string;
  position : string;
  salary_min : Z;
  salary_max : Z;
  matchingScore : Q;
  matchingReasons : list string;
  requirements : list string;
  benefits : list string
}.
End MatchedJob.

(** [_to_man]: yen to units of ten thousand yen, by floor division. *)
Definition _to_man (y : option Z) : option Z :=
  match y with
  | None => None
  | Some y => Some (y / 10000)%Z
  end.

Definition keymap : list (string * string) :=
  [ ("skill_score", "スキル適合");
    ("job_title_score", "職種マッチ");
    ("salary_score", "年収マッチ");
    ("location_score", "勤務地一致");
    ("availability_score", "稼働時期");
    ("work_style_score", "働き方相性");
    ("preference_score", "志向・カルチャー");
    ("experience_score", "経験年数") ]%string.

(** [_top_keys]: the labels of the five highest entries of a breakdown. *)
Definition _top_keys (breakdown : option (list (string * Q))) : list string :=
  match breakdown with
  | None => []
  | Some [] => []
  | Some breakdown =>
      let items :=
        firstn 5 (stable_sort (fun y x => Py.Qlt_bool (snd x) (snd y)) breakdown) in
      List.map (fun kv => or_default (Py.dict_get (fst kv) keymap) (fst kv)) items
  end.

Section Routers.

Variable model : SbertModel.
Variable today : date.
Variable float_str : Q -> string.
Variable generate_match_reason : string -> string.
(** [re.split] of a text at the sentence marks of [_reason_to_list]. *)
Variable split_sentences : string -> list string.
(** The [company] relationship of a posting. *)
Variable company_of : JobPosting.t -> option Company.t.

(** [POST /match/] *)
Definition match_job (req : MatchRequest.t) : MatchResponse :=
  let candidate := MatchRequest.candidate req in
  let job := MatchRequest.job req in
  let '(total_score, details) :=
    match_score_logic model candidate job (CandidateData.priority_order candidate) in
  let msg := match_message float_str candidate job total_score in
  {| match_score := total_score; message := msg; breakdown := details |}.

Definition _resolve_job_from_db (job : JobPosting.t) : JobDict.t :=
  let required_skills :=
    List.map (fun s => "skill_" +:+ pretty (JobPostingSkill.skill_id s))
      (List.filter (fun s => or_default (JobPostingSkill.is_mandatory s) false)
         (JobPosting.skills job)) in
  let optional_skills :=
    List.map (fun s => "skill_" +:+ pretty (JobPostingSkill.skill_id s))
      (List.filter (fun s => negb (or_default (JobPostingSkill.is_mandatory s) false))
         (JobPosting.skills job)) in
  let culture_tags :=
    List.map (fun t => "tag_" +:+ pretty (JobPostingTag.tag_id t)) (JobPosting.tags job) in
  {| JobDict.job_title := JobPosting.title job;
     JobDict.job_location := or_empty (JobPosting.location job);
     JobDict.salary := or_default (JobPosting.salary job) 0%Z;
     JobDict.availability_required := or_default (JobPosting.start_date job) today;
     JobDict.work_style_type := or_empty (JobPosting.work_style_type job);
     JobDict.required_skills := required_skills;
     JobDict.optional_skills := optional_skills;
     JobDict.culture_tags := culture_tags;
     JobDict.experience_required := None |}.

(** [POST /match/by-id] *)
Definition match_by_id (req : MatchByIdRequest.t) (db : Session) : http MatchResponse :=
  match get_job_seeker db (MatchByIdRequest.job_seeker_id req),
        get_job_posting db (MatchByIdRequest.job_posting_id req) with
  | Some seeker, Some job =>
      let candidate := _resolve_candidate_from_db today seeker db in
      match JobData_of_dict (_resolve_job_from_db job) with
      | Raise e => Unhandled e
      | Ok jobdata =>
          let '(total_score, details) :=
            match_score_logic model candidate jobdata (CandidateData.priority_order candidate) in
          let msg := match_message float_str candidate jobdata total_score in
          Respond {| match_score := total_score; message := msg; breakdown := details |}
      end
  | _, _ => HTTPException 404 "job_seeker or job_posting not found"
  end.

(** [POST /match/by-id-with-reason] *)
Definition match_by_id_with_reason (req : MatchByIdRequest.t) (db : Session)
  : http MatchWithReasonResponse :=
  match get_job_seeker db (MatchByIdRequest.job_seeker_id req),
        get_job_posting db (MatchByIdRequest.job_posting_id req) with
  | Some seeker, Some job =>
      let candidate := _resolve_candidate_from_db today seeker db in
      match JobData_of_dict (_resolve_job_from_db job) with
      | Raise e => Unhandled e
      | Ok jobdata =>
          let '(total_score, details) :=
            match_score_logic model candidate jobdata (CandidateData.priority_order candidate) in
          let msg := match_message float_str candidate jobdata total_score in
          let user_info :=
            CandidateData.name candidate +:+ "さんは" +:+ CandidateData.desired_location candidate
              +:+ "希望、働き方は" +:+ CandidateData.work_style_type candidate +:+ "。"
              +:+ "経験年数は" +:+ float_str (CandidateData.experience_years candidate)
              +:+ "年。スキル: " +:+ Py.join ", " (CandidateData.skills candidate) +:+ "。"
              +:+ "応募ポジション: " +:+ JobData.job_title jobdata +:+ "。" in
          let reason_text := generate_match_reason user_info in
          Respond {| wr_match_score := total_score;
                     wr_message := msg;
                     wr_breakdown := details;
                     reason := reason_text |}
      end
  | _, _ => HTTPException 404 "job_seeker or job_posting not found"
  end.

(** [str(e)] *)
Definition exception_str (e : Exception) : string :=
  match e with
  | ValueError msg => msg
  | DatabaseError msg => msg
  end.

(** The [try] of [get_rankings] and [rank_ui] around the ranking service:
    [ValueError] becomes a 404, any other exception a 500. *)
Definition ranking_or_http (label : string) (seeker_id : Z) (db : Session) (top_k : Z)
  : http MatchRankingResponse :=
  match rank_jobs_for_seeker_service model today seeker_id db top_k with
  | Ok resp => Respond resp
  | Raise (ValueError msg) => HTTPException 404 msg
  | Raise e => HTTPException 500 (label +:+ " failed: " +:+ exception_str e)
  end.

(** [POST /match/rankings] *)
Definition get_rankings (req : MatchRankingRequest.t) (db : Session)
  : http MatchRankingResponse :=
  ranking_or_http "ranking" (MatchRankingRequest.job_seeker_id req) db
    (or_int (Some (MatchRankingRequest.top_k req)) 10).

(** [_reason_to_list] *)
Definition _reason_to_list (txt : option string) : list string :=
  match txt with
  | None => []
  | Some txt =>
      if negb (Py.truthy txt) then []
      else
        let parts :=
          List.filter Py.truthy (List.map Py.strip (split_sentences txt)) in
        firstn 5 parts
  end.

(** One turn of the loop of [rank_ui] over [rank_resp.results]: the entry
    appended to [out["matchedJobs"]], or nothing when the posting is gone.
    [MatchRankingItem] has no [reason] and [JobPosting] no [salary_low] or
    [salary_high]: the [getattr] on them yields the [None] default. *)
Definition matched_job (db : Session) (it : MatchRankingItem) : option MatchedJob.t :=
  match get_job_posting db (job_posting_id it) with
  | None => None
  | Some jp =>
      let company := company_of jp in
      let company_name := or_str (company ≫= Company.name) "（企業名不明）" in
      let industry := or_str (company ≫= Company.industry) "—" in
      let location := or_str (JobPosting.location jp) "—" in
      let position := or_str (JobPosting.title jp) ("求人ID: " +:+ pretty (JobPosting.id jp)) in
      let salary_min := _to_man None in
      let salary_max := _to_man None in
      let '(salary_min, salary_max) :=
        match salary_min, salary_max with
        | None, None =>
            let one := _to_man (JobPosting.salary jp) in
            (one, one)
        | _, _ => (salary_min, salary_max)
        end in
      Some {| MatchedJob.id := JobPosting.id jp;
              MatchedJob.company_name := company_name;
              MatchedJob.company_industry := industry;
              MatchedJob.company_location := location;
              MatchedJob.position := position;
              MatchedJob.salary_min := or_int salary_min 0;
              MatchedJob.salary_max := or_int salary_max (or_int salary_min 0);
              MatchedJob.matchingScore := score it;
              MatchedJob.matchingReasons := _reason_to_list None;
              MatchedJob.requirements := _top_keys (Some (item_breakdown it));
              MatchedJob.benefits := [] |}
  end.

(** [POST /match/rank-ui] *)
Definition rank_ui (req : MatchRankingRequest.t) (db : Session) : http (list MatchedJob.t) :=
  match ranking_or_http "rank-ui" (MatchRankingRequest.job_seeker_id req) db
          (or_int (Some (MatchRankingRequest.top_k req)) 10) with
  | Respond rank_resp => Respond (omap (matched_job db) (results rank_resp))
  | HTTPException status_code detail => HTTPException status_code detail
  | Unhandled e => Unhandled e
  end.

End Routers.

(** ** routers/job_postings.py *)

(** [GET /job_postings/]: the page of [limit] postings after the first
    [offset], by descending id; the rows as the function returns them, before
    the framework writes them out. The framework admits a [limit] from 1 to
    100 and an [offset] of at least 0. *)
Definition list_job_postings (db : Session) (limit offset : Z) : list JobPosting.t :=
  firstn (Z.to_nat limit)
    (skipn (Z.to_nat offset)
       (stable_sort (fun y x => (JobPosting.id x <? JobPosting.id y)%Z) (job_postings db))).

(** [GET /job_postings/{job_id}] *)
Definition read_job_posting (job_id : Z) (db : Session) : http JobPosting.t :=
  match get_job_posting db job_id with
  | None => HTTPException 404 "Job posting not found"
  | Some job => Respond job
  end.

(** ** Reference definitions for the endpoints and the services *)

(** The token set of a text, as the fallback similarity builds it. *)
Definition token_set (text : string) : gset string := list_to_set (Py.split text).

(** The whole years of the history rows of a seeker, a NULL counting for 0. *)
Definition history_years (seeker : JobSeeker.t) : Z :=
  fold_right Z.add 0%Z
    (List.map (fun h => or_default (JobHistory.years_of_experience h) 0%Z)
       (JobSeeker.histories seeker)).

(** Whether a skill link counts as mandatory: a NULL flag does not. *)
Definition mandatory (link : JobPostingSkill.t) : bool :=
  or_default (JobPostingSkill.is_mandatory link) false.

(** The items of the ranking before the sort, in catalog order. *)
Definition scored_catalog (model : SbertModel) (today : date) (seeker : JobSeeker.t)
    (db : Session) : list MatchRankingItem :=
  List.map (score_job model today (resolve_candidate_from_db today seeker)) (job_postings db).

(** The cut of the ranking for [top_k]. *)
Definition ranking_limit (top_k : Z) : nat := Z.to_nat (Z.max 1 top_k).

(** What one entry of the answer of [rank_ui] shows of the ranking item it
    was built from. *)
Definition shown_as (db : Session) (it : MatchRankingItem) (entry : MatchedJob.t) : Prop :=
  MatchedJob.id entry = job_posting_id it /\
  MatchedJob.matchingScore entry = score it /\
  MatchedJob.matchingReasons entry = [] /\
  MatchedJob.benefits entry = [] /\
  length (MatchedJob.requirements entry) = 5%nat /\
  MatchedJob.salary_max entry = MatchedJob.salary_min entry /\
  exists jp, get_job_posting db (job_posting_id it) = Some jp /\
             MatchedJob.salary_min entry = (or_default (JobPosting.salary jp) 0 / 10000)%Z.

(** * Properties *)

(** ** Rationals and tokens *)

Lemma Qlt_bool_iff (x y : Q) : Py.Qlt_bool x y = true <-> (x < y)%Q.
Proof.
  unfold Py.Qlt_bool. rewrite negb_true_iff.
  destruct (Qle_bool y x) eqn:E.
  - apply Qle_bool_iff in E. split; [discriminate | intros L; exfalso; lra].
  - split; [intros _ | reflexivity].
    apply Qnot_le_lt. intros L. apply Qle_bool_iff in L. congruence.
Qed.

Lemma Qlt_bool_false_iff (x y : Q) : Py.Qlt_bool x y = false <-> (y <= x)%Q.
Proof.
  unfold Py.Qlt_bool. rewrite negb_false_iff. apply Qle_bool_iff.
Qed.

Lemma Qle_bool_false (x y : Q) : Qle_bool x y = false -> (y < x)%Q.
Proof.
  intros E. apply Qnot_le_lt. intros L. apply Qle_bool_iff in L. congruence.
Qed.

Lemma ratio_in_unit (a b : nat) :
  (a <= b)%nat -> (0 < b)%nat ->
  (0 <= inject_Z (Z.of_nat a) / inject_Z (Z.of_nat b) <= 1)%Q.
Proof.
  intros Hab Hb.
  assert (Hpos : (0 < inject_Z (Z.of_nat b))%Q).
  { change 0%Q with (inject_Z 0). rewrite <- Zlt_Qlt. lia. }
  assert (Ha : (0 <= inject_Z (Z.of_nat a))%Q).
  { change 0%Q with (inject_Z 0). rewrite <- Zle_Qle. lia. }
  assert (Hle : (inject_Z (Z.of_nat a) <= inject_Z (Z.of_nat b))%Q).
  { rewrite <- Zle_Qle. lia. }
  split.
  - apply Qle_shift_div_l; [exact Hpos | lra].
  - apply Qle_shift_div_r; [exact Hpos | lra].
Qed.

Lemma forallb_space_split (cs : list ascii) :
  forallb Py.isspace cs = true -> Py.split_from EmptyString (string_of_list_ascii cs) = [].
Proof.
  induction cs as [|c cs IH]; simpl; [reflexivity |].
  intros H. apply andb_true_iff in H as [Hc Hcs].
  rewrite Hc. simpl. auto.
Qed.

Lemma sbert_fallback_range (text1 text2 : string) :
  (0 <= sbert_similarity None text1 text2 <= 1)%Q.
Proof.
  unfold sbert_similarity.
  set (set1 := list_to_set (Py.split text1) : gset string).
  set (set2 := list_to_set (Py.split text2) : gset string).
  destruct (bool_decide (set1 = ∅)) eqn:E1; simpl; [lra |].
  destruct (bool_decide (set2 = ∅)) eqn:E2; simpl; [lra |].
  apply bool_decide_eq_false in E1.
  apply ratio_in_unit.
  - apply subseteq_size. etrans; [apply intersection_subseteq_l | apply union_subseteq_l].
  - assert (Hsub : (size set1 <= size (set1 ∪ set2))%nat)
      by (apply subseteq_size, union_subseteq_l).
    assert (Hne : size set1 <> 0%nat).
    { rewrite size_empty_iff. intros Hempty. apply E1, leibniz_equiv, Hempty. }
    lia.
Qed.

Lemma sbert_fallback_comm (text1 text2 : string) :
  sbert_similarity None text1 text2 = sbert_similarity None text2 text1.
Proof.
  unfold sbert_similarity.
  rewrite (orb_comm (bool_decide (list_to_set (Py.split text1) = ∅))).
  rewrite (comm_L (∩) (list_to_set (Py.split text1) : gset string)).
  rewrite (comm_L (∪) (list_to_set (Py.split text1) : gset string)).
  reflexivity.
Qed.

Lemma sbert_fallback_no_tokens (text1 text2 : string) :
  Py.split text1 = [] \/ Py.split text2 = [] -> sbert_similarity None text1 text2 = 0%Q.
Proof.
  unfold sbert_similarity. intros [E|E]; rewrite E; simpl.
  - reflexivity.
  - rewrite orb_true_r. reflexivity.
Qed.

(** ** Rounding *)

Lemma round_half_even_between (x : Q) (a b : Z) :
  (inject_Z a <= x <= inject_Z b)%Q -> (a <= Py.round_half_even x <= b)%Z.
Proof.
  intros [Ha Hb]. unfold Py.round_half_even.
  pose proof (Qfloor_le x) as Hfl.
  pose proof (Qlt_floor x) as Hfu.
  assert (Hlo : (a <= Qfloor x)%Z).
  { rewrite <- (Qfloor_Z a). apply Qfloor_resp_le. exact Ha. }
  assert (Hhi : (Qfloor x <= b)%Z).
  { rewrite <- (Qfloor_Z b). apply Qfloor_resp_le. exact Hb. }
  assert (Hup : (inject_Z (Qfloor x) < x)%Q -> (Qfloor x + 1 <= b)%Z).
  { intros Hlt. assert (inject_Z (Qfloor x) < inject_Z b)%Q by lra.
    rewrite <- Zlt_Qlt in H. lia. }
  destruct ((x - inject_Z (Qfloor x)) ?= (1 # 2))%Q eqn:C.
  - apply Qeq_alt in C.
    destruct (Z.even (Qfloor x)); [lia |].
    split; [lia | apply Hup; lra].
  - lia.
  - apply Qgt_alt in C. split; [lia | apply Hup; lra].
Qed.

Lemma round_half_even_comp (x y : Q) :
  (x == y)%Q -> Py.round_half_even x = Py.round_half_even y.
Proof.
  intros E. unfold Py.round_half_even.
  assert (F : Qfloor x = Qfloor y) by (apply Qfloor_comp; exact E).
  rewrite F.
  assert (C : ((x - inject_Z (Qfloor y)) ?= (1 # 2))%Q = ((y - inject_Z (Qfloor y)) ?= (1 # 2))%Q).
  { apply Qcompare_comp; [rewrite E; reflexivity | reflexivity]. }
  rewrite C. reflexivity.
Qed.

Lemma round_comp (x y : Q) (n : nat) : (x == y)%Q -> Py.round x n = Py.round y n.
Proof.
  intros E. unfold Py.round.
  rewrite (round_half_even_comp (x * inject_Z (10 ^ Z.of_nat n)) (y * inject_Z (10 ^ Z.of_nat n)));
    [reflexivity | rewrite E; reflexivity].
Qed.

Lemma round2_between (x : Q) (a b : Z) :
  (inject_Z a <= x <= inject_Z b)%Q -> (inject_Z a <= Py.round x 2 <= inject_Z b)%Q.
Proof.
  intros [Ha Hb]. unfold Py.round.
  change (inject_Z (10 ^ Z.of_nat 2)) with (inject_Z 100).
  assert (H : (a * 100 <= Py.round_half_even (x * inject_Z 100) <= b * 100)%Z).
  { apply round_half_even_between. rewrite !inject_Z_mult.
    change (inject_Z 100) with 100%Q. split; nra. }
  destruct H as [H1 H2].
  rewrite Zle_Qle in H1, H2. rewrite inject_Z_mult in H1, H2.
  change (inject_Z 100) with 100%Q in *.
  split.
  - apply Qle_shift_div_l; [reflexivity | exact H1].
  - apply Qle_shift_div_r; [reflexivity | exact H2].
Qed.

Lemma round2_unit (x : Q) : (0 <= x <= 1)%Q -> (0 <= Py.round x 2 <= 1)%Q.
Proof. intros H. apply (round2_between x 0 1). exact H. Qed.

(** Rounding moves a value by at most half a hundredth. *)
Lemma round_half_even_near (x : Q) :
  (x - (1 # 2) <= inject_Z (Py.round_half_even x) <= x + (1 # 2))%Q.
Proof.
  unfold Py.round_half_even.
  pose proof (Qfloor_le x) as Hfl.
  pose proof (Qlt_floor x) as Hfu.
  rewrite inject_Z_plus in Hfu. change (inject_Z 1) with 1%Q in Hfu.
  destruct ((x - inject_Z (Qfloor x)) ?= (1 # 2))%Q eqn:C.
  - apply Qeq_alt in C.
    destruct (Z.even (Qfloor x)).
    + split; lra.
    + rewrite inject_Z_plus. change (inject_Z 1) with 1%Q. split; lra.
  - apply Qlt_alt in C. split; lra.
  - apply Qgt_alt in C. rewrite inject_Z_plus. change (inject_Z 1) with 1%Q. split; lra.
Qed.

(** The exact value is within the tolerance of itself. *)
Lemma float_tolerance_exact (value : Q) : (Qabs (value - value) <= float_tolerance)%Q.
Proof.
  assert (E : (value - value == 0)%Q) by ring.
  rewrite E. vm_compute. discriminate.
Qed.

Lemma rounded_from_exact (value : Q) : rounded_from value (Py.round value 2).
Proof. exists value. split; [apply float_tolerance_exact | reflexivity]. Qed.

(** An entry rounded from a factor is within half a hundredth of its exact
    value, up to the tolerance. *)
Lemma rounded_from_near (value entry : Q) :
  rounded_from value entry -> (Qabs (entry - value) <= (1 # 200) + float_tolerance)%Q.
Proof.
  intros (computed & Hc & He).
  apply Qabs_Qle_condition in Hc as [Hc1 Hc2].
  pose proof (round_half_even_near (computed * inject_Z 100)) as [Hr1 Hr2].
  assert (Hentry : (entry == inject_Z (Py.round_half_even (computed * inject_Z 100)) / 100)%Q)
    by (rewrite He; reflexivity).
  change (inject_Z 100) with 100%Q in Hr1, Hr2, Hentry.
  revert Hr1 Hr2 Hentry.
  generalize (inject_Z (Py.round_half_even (computed * 100))). intros z Hr1 Hr2 Hentry.
  assert (Hz : (z == entry * 100)%Q) by (rewrite Hentry; field).
  apply Qabs_Qle_condition. revert Hc1 Hc2. generalize float_tolerance. intros t Hc1 Hc2.
  split; lra.
Qed.

(** ** Weights and totals *)

Lemma eqb_decide (a b : string) :
  String.eqb a b = bool_decide (a = b).
Proof.
  destruct (String.eqb_spec a b) as [E|E].
  - symmetry. apply bool_decide_eq_true. exact E.
  - symmetry. apply bool_decide_eq_false. exact E.
Qed.

Lemma decide_some (a b : string) :
  bool_decide (Some a = Some b) = bool_decide (a = b).
Proof.
  apply bool_decide_ext. split; [intros [= ->]; reflexivity | intros ->; reflexivity].
Qed.

Lemma calculate_weight_by_position (field : string) (priority_list : list string) :
  calculate_weight field priority_list = weight_by_position field priority_list.
Proof.
  unfold calculate_weight, weight_by_position, Py.contains.
  destruct priority_list as [|a [|b [|c rest]]]; simpl;
    rewrite ?decide_some, ?(eqb_decide field), ?(eqb_decide a), ?(eqb_decide b), ?(eqb_decide c);
    rewrite ?(bool_decide_ext (field = a) (a = field)) by (split; congruence);
    rewrite ?(bool_decide_ext (field = b) (b = field)) by (split; congruence);
    rewrite ?(bool_decide_ext (field = c) (c = field)) by (split; congruence);
    repeat (case_bool_decide; simpl; try reflexivity).
  all: try reflexivity.
  all: destruct (existsb _ rest); simpl; try reflexivity;
    destruct (Py.index field rest); reflexivity.
Qed.

Lemma calculate_weight_ge_1 (field : string) (priority_list : list string) :
  (1 <= calculate_weight field priority_list)%Q.
Proof.
  rewrite calculate_weight_by_position. unfold weight_by_position.
  repeat case_bool_decide; lra.
Qed.

Lemma sum_from (l : list Q) (a : Q) : (fold_left Qplus l a == a + Py.sum l)%Q.
Proof.
  unfold Py.sum. revert a. induction l as [|x l IH]; intros a; simpl.
  - lra.
  - rewrite (IH (a + x)%Q), (IH (0 + x)%Q). lra.
Qed.

Lemma sum_cons (x : Q) (l : list Q) : (Py.sum (x :: l) == x + Py.sum l)%Q.
Proof. unfold Py.sum at 1. simpl. rewrite sum_from. lra. Qed.

Lemma weigh_maps (items : list (string * Q)) (priority_list : list string) :
  weigh items priority_list =
    (List.map (fun kv => (snd kv * weight_by_position (fst kv) priority_list)%Q) items,
     List.map (fun kv => weight_by_position (fst kv) priority_list) items).
Proof.
  induction items as [|[field value] rest IH]; simpl; [reflexivity |].
  rewrite IH, calculate_weight_by_position. reflexivity.
Qed.

Lemma weight_sum_ge (breakdown : list (string * Q)) (priority_order : list string) :
  (inject_Z (Z.of_nat (length breakdown)) <= weight_sum breakdown priority_order)%Q.
Proof.
  unfold weight_sum. induction breakdown as [|[k v] rest IH].
  - apply Qle_refl.
  - cbn [List.map length fst]. rewrite sum_cons, Nat2Z.inj_succ.
    unfold Z.succ. rewrite inject_Z_plus.
    pose proof (calculate_weight_ge_1 k priority_order) as Hw.
    rewrite calculate_weight_by_position in Hw.
    change (inject_Z 1) with 1%Q. lra.
Qed.

Lemma weighted_sum_bounds (breakdown : list (string * Q)) (priority_order : list string) :
  Forall (fun kv => (0 <= snd kv <= 1)%Q) breakdown ->
  (0 <= weighted_sum breakdown priority_order <= weight_sum breakdown priority_order)%Q.
Proof.
  unfold weighted_sum, weight_sum. induction 1 as [|[k v] rest Hv _ IH].
  - simpl. unfold Py.sum. simpl. lra.
  - cbn [List.map fst snd] in *. rewrite !sum_cons.
    pose proof (calculate_weight_ge_1 k priority_order) as Hw.
    rewrite calculate_weight_by_position in Hw.
    split; nra.
Qed.

Lemma weight_sum_pos (kv : string * Q) (rest : list (string * Q)) (priority_order : list string) :
  (0 < weight_sum (kv :: rest) priority_order)%Q.
Proof.
  pose proof (weight_sum_ge (kv :: rest) priority_order) as Hge.
  cbn [length] in Hge. rewrite Nat2Z.inj_succ in Hge. unfold Z.succ in Hge.
  rewrite inject_Z_plus in Hge. change (inject_Z 1) with 1%Q in Hge.
  assert (0 <= inject_Z (Z.of_nat (length rest)))%Q
    by (change 0%Q with (inject_Z 0); rewrite <- Zle_Qle; lia).
  revert Hge. generalize (weight_sum (kv :: rest) priority_order). intros w Hge. lra.
Qed.

(** The total computed by the loop is the worded total, for any breakdown. *)
Lemma total_of_claimed (items : list (string * Q)) (priority_list : list string) :
  (Py.round (total_of items priority_list) 2 == claimed_total items priority_list)%Q.
Proof.
  unfold total_of, claimed_total. rewrite weigh_maps.
  fold (weighted_sum items priority_list). fold (weight_sum items priority_list).
  destruct items as [|kv rest]; [reflexivity |].
  cbn [List.map].
  pose proof (weight_sum_pos kv rest priority_list) as Hpos.
  destruct (Qeq_bool (weight_sum (kv :: rest) priority_list) 0) eqn:E.
  - apply Qeq_bool_iff in E. exfalso.
    revert Hpos E. generalize (weight_sum (kv :: rest) priority_list). intros w Hpos E. lra.
  - erewrite round_comp; [reflexivity |].
    revert Hpos. generalize (weight_sum (kv :: rest) priority_list) as w.
    generalize (weighted_sum (kv :: rest) priority_list) as sw.
    intros sw w Hpos. field. lra.
Qed.

Lemma total_of_range (items : list (string * Q)) (priority_list : list string) :
  Forall (fun kv => (0 <= snd kv <= 1)%Q) items ->
  (0 <= total_of items priority_list <= 100)%Q.
Proof.
  intros Hall. unfold total_of. rewrite weigh_maps.
  pose proof (weighted_sum_bounds items priority_list Hall) as [H0 H1].
  destruct items as [|kv rest].
  - simpl. lra.
  - change (0 <= weighted_sum (kv :: rest) priority_list
                 / weight_sum (kv :: rest) priority_list * 100 <= 100)%Q.
    pose proof (weight_sum_pos kv rest priority_list) as Hpos.
    revert H0 H1 Hpos.
    generalize (weight_sum (kv :: rest) priority_list) as w.
    generalize (weighted_sum (kv :: rest) priority_list) as sw.
    intros sw w H0 H1 Hpos.
    assert (0 <= sw / w <= 1)%Q.
    { split; [apply Qle_shift_div_l | apply Qle_shift_div_r]; lra. }
    lra.
Qed.

(** ** The factors *)

Lemma sbert_similarity_range (model : SbertModel) (a b : string) :
  model_in_unit model -> (0 <= sbert_similarity model a b <= 1)%Q.
Proof.
  intros Hm. destruct model as [cos_sim|].
  - simpl. apply (Hm cos_sim eq_refl).
  - apply sbert_fallback_range.
Qed.

Lemma experience_score_range (candidate : CandidateData.t) (job : JobData.t) :
  (0 <= experience_score candidate job <= 1)%Q.
Proof.
  unfold experience_score.
  destruct (Py.Qlt_bool _ 1); [lra |].
  destruct (JobData.experience_required job) as [required|]; [| lra].
  cbv zeta.
  destruct (Qle_bool (required - _) 0) eqn:E0; [lra |].
  destruct (Qle_bool (required - _) 3) eqn:E3; [| lra].
  apply Qle_bool_false in E0. apply Qle_bool_iff in E3.
  revert E0 E3. generalize (required - CandidateData.experience_years candidate)%Q as gap.
  intros gap E0 E3.
  assert (gap / 6.0 == gap * (1 # 6))%Q by (field).
  lra.
Qed.

Lemma location_score_range (candidate : CandidateData.t) (job : JobData.t) :
  (0 <= location_score candidate job <= 1)%Q.
Proof. unfold location_score. destruct (String.eqb _ _); lra. Qed.

Lemma salary_score_range (candidate : CandidateData.t) (job : JobData.t) :
  (0 <= salary_score candidate job <= 1)%Q.
Proof.
  unfold salary_score.
  destruct (JobData.salary job <=? 0)%Z; [lra |].
  cbv zeta.
  set (gap := Z.abs _).
  assert (Hgap : (0 <= inject_Z gap)%Q).
  { change 0%Q with (inject_Z 0). rewrite <- Zle_Qle. apply Z.abs_nonneg. }
  assert (Hdiv : (inject_Z gap / 200.0 == inject_Z gap * (1 # 200))%Q) by field.
  assert (Hraw : (0 <= Qmax 0.0 (1.0 - inject_Z gap / 200.0) <= 1)%Q).
  { pose proof (Q.le_max_l 0.0 (1.0 - inject_Z gap / 200.0)) as Hl.
    assert (Hu : (Qmax 0.0 (1.0 - inject_Z gap / 200.0) <= 1)%Q) by (apply Q.max_lub; lra).
    split; lra. }
  destruct (CandidateData.desired_salary candidate <=? JobData.salary job)%Z.
  - revert Hraw. generalize (Qmax 0.0 (1.0 - inject_Z gap / 200.0)) as raw. intros raw Hraw.
    pose proof (Q.le_min_l 1.0 (raw * 1.05)) as Hl.
    assert (Hg : (0 <= Qmin 1.0 (raw * 1.05))%Q) by (apply Q.min_glb; nra).
    split; lra.
  - exact Hraw.
Qed.

Lemma avail_score_range (candidate : CandidateData.t) (job : JobData.t) :
  (0 <= avail_score candidate job <= 1)%Q.
Proof.
  unfold avail_score. cbv zeta.
  destruct (_ <=? 30)%Z; [lra |]. destruct (_ <=? 90)%Z; lra.
Qed.

Lemma factor_values_range (model : SbertModel) (candidate : CandidateData.t) (job : JobData.t) :
  model_in_unit model ->
  Forall (fun v => (0 <= v <= 1)%Q) (factor_values model candidate job).
Proof.
  intros Hm. unfold factor_values.
  repeat apply Forall_cons_2; try apply Forall_nil_2.
  - apply sbert_similarity_range, Hm.
  - apply sbert_similarity_range, Hm.
  - apply experience_score_range.
  - apply location_score_range.
  - apply salary_score_range.
  - unfold preference_score. cbv zeta.
    destruct (_ && _); [apply sbert_similarity_range, Hm | lra].
  - apply avail_score_range.
  - unfold work_score.
    destruct (_ && _); [apply sbert_similarity_range, Hm | lra].
Qed.

(** The breakdown, entry by entry. *)
Lemma score_breakdown_entries (model : SbertModel) (candidate : CandidateData.t) (job : JobData.t) :
  score_breakdown model candidate job =
    [ ("skill_score", Py.round (skill_score model candidate job) 2);
      ("job_title_score", Py.round (job_score model candidate job) 2);
      ("experience_score", Py.round (experience_score candidate job) 2);
      ("location_score", location_score candidate job);
      ("salary_score", Py.round (Qmin (salary_score candidate job) 1.0) 2);
      ("preference_score", Py.round (preference_score model candidate job) 2);
      ("availability_score", Py.round (avail_score candidate job) 2);
      ("work_style_score", Py.round (work_score model candidate job) 2) ]%string.
Proof. reflexivity. Qed.

Lemma location_score_rounded (candidate : CandidateData.t) (job : JobData.t) :
  (location_score candidate job == Py.round (location_score candidate job) 2)%Q.
Proof. unfold location_score. destruct (String.eqb _ _); reflexivity. Qed.

Lemma score_breakdown_rounds (model : SbertModel) (candidate : CandidateData.t) (job : JobData.t) :
  Forall2 (fun kv v => (snd kv == Py.round v 2)%Q)
    (score_breakdown model candidate job) (factor_values model candidate job).
Proof.
  rewrite score_breakdown_entries. unfold factor_values.
  repeat apply Forall2_cons_2; try apply Forall2_nil_2; cbn [snd]; try reflexivity.
  - apply location_score_rounded.
  - rewrite (round_comp (Qmin (salary_score candidate job) 1.0) (salary_score candidate job));
      [reflexivity |].
    apply Q.min_l. pose proof (salary_score_range candidate job). lra.
Qed.

(** ** Similarity and experience *)

(** C10. With the SBERT backend disabled, [sbert_similarity] is symmetric,
    stays within [0,1], and is 0 as soon as one of the two texts has no
    whitespace-separated token, which is the case of an empty text and of a
    text made of whitespace only. *)
Theorem sbert_fallback_symmetric_bounded (a b : string) :
  sbert_similarity None a b = sbert_similarity None b a /\
  (0 <= sbert_similarity None a b <= 1)%Q /\
  (Py.split a = [] \/ Py.split b = [] -> sbert_similarity None a b = 0%Q) /\
  (forall cs, forallb Py.isspace cs = true -> Py.split (string_of_list_ascii cs) = []).
Proof.
  split; [apply sbert_fallback_comm |].
  split; [apply sbert_fallback_range |].
  split; [apply sbert_fallback_no_tokens |].
  intros cs. apply forallb_space_split.
Qed.

Lemma sbert_fallback_symmetric_bounded_witness :
  sbert_similarity None "python sql" "   " = 0%Q.
Proof.
  destruct (sbert_fallback_symmetric_bounded "python sql" "   ") as (_ & _ & H & _).
  apply H. right. reflexivity.
Defined.

(** C6. The experience factor: 0 below one year of experience; otherwise 1
    when the job states no requirement; otherwise, with gap = required minus
    years, 1 for gap <= 0, 1 - gap/6 for 0 < gap <= 3 and 0.5 beyond. The
    breakdown carries the factor, as computed, rounded to two decimals. *)
Theorem experience_score_cases (model : SbertModel) (candidate : CandidateData.t)
    (job : JobData.t) (priority_order : list string) :
  let years := CandidateData.experience_years candidate in
  let value := experience_score candidate job in
  ((years < 1)%Q -> (value == 0)%Q) /\
  ((1 <= years)%Q -> JobData.experience_required job = None -> (value == 1)%Q) /\
  (forall required, (1 <= years)%Q -> JobData.experience_required job = Some required ->
     let gap := (required - years)%Q in
     ((gap <= 0)%Q -> (value == 1)%Q) /\
     ((0 < gap)%Q -> (gap <= 3)%Q -> (value == 1 - gap / 6)%Q) /\
     ((3 < gap)%Q -> (value == 1 # 2)%Q)) /\
  ((years == 9 # 10)%Q -> (value == 0)%Q) /\
  (forall required, (years == 5)%Q -> JobData.experience_required job = Some required ->
     ((required == 5)%Q -> (value == 1)%Q) /\
     ((required == 8)%Q -> (value == 1 # 2)%Q) /\
     ((required == 12)%Q -> (value == 1 # 2)%Q)) /\
  (exists entry,
      Py.dict_get "experience_score" (snd (match_score_logic model candidate job priority_order))
      = Some entry /\
      rounded_from value entry).
Proof.
  intros years value.
  assert (Hlow : (years < 1)%Q -> (value == 0)%Q).
  { intros Hy. subst value. unfold experience_score. fold years.
    apply Qlt_bool_iff in Hy. rewrite Hy. reflexivity. }
  assert (Hreq : forall required, (1 <= years)%Q ->
            JobData.experience_required job = Some required ->
            let gap := (required - years)%Q in
            ((gap <= 0)%Q -> (value == 1)%Q) /\
            ((0 < gap)%Q -> (gap <= 3)%Q -> (value == 1 - gap / 6)%Q) /\
            ((3 < gap)%Q -> (value == 1 # 2)%Q)).
  { intros required Hy Hr gap. subst value. unfold experience_score. fold years.
    apply Qlt_bool_false_iff in Hy. rewrite Hy, Hr. cbv zeta. fold gap.
    repeat split.
    - intros Hg. apply Qle_bool_iff in Hg. rewrite Hg. reflexivity.
    - intros Hg0 Hg3.
      destruct (Qle_bool gap 0) eqn:E0; [apply Qle_bool_iff in E0; exfalso; lra |].
      apply Qle_bool_iff in Hg3. rewrite Hg3. field.
    - intros Hg.
      destruct (Qle_bool gap 0) eqn:E0; [apply Qle_bool_iff in E0; exfalso; lra |].
      destruct (Qle_bool gap 3) eqn:E3; [apply Qle_bool_iff in E3; exfalso; lra |].
      reflexivity. }
  split; [exact Hlow |].
  split.
  { intros Hy Hr. subst value. unfold experience_score. fold years.
    apply Qlt_bool_false_iff in Hy. rewrite Hy, Hr. reflexivity. }
  split; [exact Hreq |].
  split; [intros Hy; apply Hlow; lra |].
  split.
  - intros required Hy Hr.
    destruct (Hreq required ltac:(lra) Hr) as (H1 & H2 & H3).
    repeat split; intros E.
    + apply H1. lra.
    + rewrite H2 by lra. rewrite E, Hy. reflexivity.
    + apply H3. lra.
  - eexists. split; [reflexivity |]. apply rounded_from_exact.
Qed.

Lemma experience_score_cases_witness :
  (experience_score (sample_candidate 5%Q 500%Z 100%Z []) (sample_job 500%Z 100%Z (Some 8%Q)) == 1 - 3 / 6)%Q.
Proof.
  pose proof (experience_score_cases None (sample_candidate 5%Q 500%Z 100%Z [])
                (sample_job 500%Z 100%Z (Some 8%Q)) []) as H.
  cbv zeta in H. destruct H as (_ & _ & H & _).
  destruct (H 8%Q ltac:(vm_compute; discriminate) eq_refl) as (_ & H2 & _).
  rewrite H2; [reflexivity | reflexivity | vm_compute; discriminate].
Defined.

(** ** Salary, availability, breakdown *)

(** C7. The salary factor: 0 when the offer is not positive; otherwise, with
    gap = |desired - offer| and raw = max(0, 1 - gap/200), it is raw * 1.05
    capped at 1 when the candidate asks for no more than the offer, and raw
    otherwise. Asking 500 for an offer of 500 gives 1, asking 700 gives 0.
    The breakdown carries the factor, as computed, rounded to two decimals. *)
Theorem salary_score_cases (model : SbertModel) (candidate : CandidateData.t)
    (job : JobData.t) (priority_order : list string) :
  let offer := JobData.salary job in
  let desired := CandidateData.desired_salary candidate in
  let value := salary_score candidate job in
  let gap := inject_Z (Z.abs (desired - offer)) in
  let raw := Qmax 0 (1 - gap / 200) in
  ((offer <= 0)%Z -> (value == 0)%Q) /\
  ((0 < offer)%Z -> (desired <= offer)%Z -> (value == Qmin 1 (raw * 1.05))%Q) /\
  ((0 < offer)%Z -> (offer < desired)%Z -> (value == raw)%Q) /\
  (desired = 500%Z -> offer = 500%Z -> (value == 1)%Q) /\
  (desired = 700%Z -> offer = 500%Z -> (value == 0)%Q) /\
  (exists entry,
      Py.dict_get "salary_score" (snd (match_score_logic model candidate job priority_order))
      = Some entry /\
      rounded_from value entry).
Proof.
  intros offer desired value gap raw.
  assert (Hraw : (Qmax 0.0 (1.0 - gap / 200.0) == raw)%Q).
  { subst raw. apply Q.max_compat; [reflexivity | field]. }
  split; [| split; [| split; [| split; [| split]]]].
  - intros Ho. subst value. unfold salary_score. fold offer.
    apply Z.leb_le in Ho. rewrite Ho. reflexivity.
  - intros Ho Hd. subst value. unfold salary_score. fold offer desired.
    apply Z.leb_gt in Ho. apply Z.leb_le in Hd. rewrite Ho, Hd. cbv zeta. fold gap.
    apply Q.min_compat; [reflexivity | rewrite Hraw; reflexivity].
  - intros Ho Hd. subst value. unfold salary_score. fold offer desired.
    apply Z.leb_gt in Ho, Hd. rewrite Ho, Hd. cbv zeta. fold gap. exact Hraw.
  - intros Hd Ho. subst value. unfold salary_score. fold offer desired.
    rewrite Hd, Ho. reflexivity.
  - intros Hd Ho. subst value. unfold salary_score. fold offer desired.
    rewrite Hd, Ho. reflexivity.
  - eexists. split; [reflexivity |].
    rewrite (round_comp (Qmin (salary_score candidate job) 1.0) value);
      [apply rounded_from_exact |].
    apply Q.min_l. pose proof (salary_score_range candidate job). subst value. lra.
Qed.

Lemma salary_score_cases_witness :
  (salary_score (sample_candidate 5%Q 450%Z 100%Z []) (sample_job 500%Z 100%Z None)
   == Qmin 1 (Qmax 0 (1 - inject_Z 50 / 200) * 1.05))%Q.
Proof.
  pose proof (salary_score_cases None (sample_candidate 5%Q 450%Z 100%Z [])
                (sample_job 500%Z 100%Z None) []) as H.
  cbv zeta in H. destruct H as (_ & H & _).
  apply H; simpl; lia.
Defined.

(** C8. The availability factor is a function of d = required date minus the
    candidate's start date, in days: 1 for d <= 30 (negative d included), 0.7
    for 30 < d <= 90, 0.3 beyond 90. *)
Theorem availability_score_cases (model : SbertModel) (candidate : CandidateData.t)
    (job : JobData.t) (priority_order : list string) :
  let d := (JobData.availability_required job - CandidateData.available_start_date candidate)%Z in
  let value := avail_score candidate job in
  ((d <= 30)%Z -> (value == 1)%Q) /\
  ((d < 0)%Z -> (value == 1)%Q) /\
  ((30 < d)%Z -> (d <= 90)%Z -> (value == 7 # 10)%Q) /\
  ((90 < d)%Z -> (value == 3 # 10)%Q) /\
  (forall candidate' job',
     (JobData.availability_required job' - CandidateData.available_start_date candidate')%Z = d ->
     avail_score candidate' job' = value) /\
  (exists v, Py.dict_get "availability_score"
               (snd (match_score_logic model candidate job priority_order)) = Some v /\
             (v == value)%Q).
Proof.
  intros d value. subst value. unfold avail_score, days_diff. fold d. cbv zeta.
  assert (H30 : (d <= 30)%Z -> ((if (d <=? 30)%Z then 1.0 else if (d <=? 90)%Z then 0.7 else 0.3) == 1)%Q).
  { intros Hd. apply Z.leb_le in Hd. rewrite Hd. reflexivity. }
  repeat split.
  - exact H30.
  - intros Hd. apply H30. lia.
  - intros H1 H2. apply Z.leb_gt in H1. apply Z.leb_le in H2. rewrite H1, H2. reflexivity.
  - intros H1. assert (H2 : (30 < d)%Z) by lia.
    apply Z.leb_gt in H1, H2. rewrite H1, H2. reflexivity.
  - intros candidate' job' E. rewrite E. reflexivity.
  - eexists. split; [reflexivity |].
    unfold avail_score, days_diff. fold d. cbv zeta.
    destruct (d <=? 30)%Z; [reflexivity |]. destruct (d <=? 90)%Z; reflexivity.
Qed.

Lemma availability_score_cases_witness :
  (avail_score (sample_candidate 5%Q 500%Z 100%Z []) (sample_job 500%Z 160%Z None) == 7 # 10)%Q.
Proof.
  pose proof (availability_score_cases None (sample_candidate 5%Q 500%Z 100%Z [])
                (sample_job 500%Z 160%Z None) []) as H.
  cbv zeta in H. destruct H as (_ & _ & H & _).
  apply H; simpl; lia.
Defined.

(** C3. When the similarity collaborator answers within [0,1], the breakdown
    of [match_score_logic] has exactly the eight factor keys, each entry is
    its factor, as computed, rounded to two decimals and lies in [0,1], and
    the total lies in [0,100]. *)
Theorem match_score_logic_breakdown_range (model : SbertModel) (candidate : CandidateData.t)
    (job : JobData.t) (priority_order : list string) :
  model_in_unit model ->
  let total := fst (match_score_logic model candidate job priority_order) in
  let breakdown := snd (match_score_logic model candidate job priority_order) in
  List.map fst breakdown = factor_keys /\
  Forall2 (fun kv v => rounded_from v (snd kv)) breakdown (factor_values model candidate job) /\
  Forall (fun kv => (0 <= snd kv <= 1)%Q) breakdown /\
  (0 <= total <= 100)%Q.
Proof.
  intros Hm total breakdown.
  assert (Hrounds : Forall2 (fun kv v => (snd kv == Py.round v 2)%Q) breakdown
                      (factor_values model candidate job))
    by apply score_breakdown_rounds.
  assert (Hrange : Forall (fun kv => (0 <= snd kv <= 1)%Q) breakdown).
  { pose proof (factor_values_range model candidate job Hm) as Hv.
    revert Hv. induction Hrounds as [|kv v l l' E _ IH]; intros Hv; constructor.
    - apply Forall_cons_1 in Hv as [Hv _]. rewrite E. apply round2_unit. exact Hv.
    - apply IH. apply Forall_cons_1 in Hv as [_ Hv]. exact Hv. }
  split; [reflexivity |].
  split.
  { eapply Forall2_impl; [exact Hrounds |]. intros kv v E.
    exists v. split; [apply float_tolerance_exact | exact E]. }
  split; [exact Hrange |].
  subst total. cbn [fst match_score_logic].
  apply (round2_between _ 0 100).
  apply total_of_range. exact Hrange.
Qed.

Lemma match_score_logic_breakdown_range_witness :
  (0 <= fst (match_score_logic None (sample_candidate 5%Q 500%Z 100%Z [])
               (sample_job 500%Z 160%Z None) []) <= 100)%Q.
Proof.
  apply (match_score_logic_breakdown_range None (sample_candidate 5%Q 500%Z 100%Z [])
           (sample_job 500%Z 160%Z None) []).
  intros cos_sim E. discriminate E.
Defined.

(** ** The stable sort *)

Section StableSort.

Context {A : Type} (before : A -> A -> bool).

Lemma stable_insert_perm (x : A) (l : list A) :
  Permutation (stable_insert before x l) (x :: l).
Proof.
  induction l as [|y l IH]; simpl; [reflexivity |].
  destruct (before y x); [| reflexivity].
  rewrite IH. apply perm_swap.
Qed.

Lemma stable_sort_perm (l : list A) : Permutation (stable_sort before l) l.
Proof.
  induction l as [|x l IH]; simpl; [reflexivity |].
  rewrite stable_insert_perm. constructor. exact IH.
Qed.

Lemma stable_sort_length (l : list A) : length (stable_sort before l) = length l.
Proof. apply Permutation_length, stable_sort_perm. Qed.

(** Elements none of which has to precede another keep their order. *)
Lemma stable_insert_filter (p : A -> bool) (x : A) (l : list A) :
  (forall a b, p a = true -> p b = true -> before a b = false) ->
  List.filter p (stable_insert before x l) = List.filter p (x :: l).
Proof.
  intros Htie. induction l as [|y l IH]; [reflexivity |].
  cbn [stable_insert]. destruct (before y x) eqn:E; [| reflexivity].
  cbn [List.filter] in *. rewrite IH.
  destruct (p x) eqn:Px; [| reflexivity].
  destruct (p y) eqn:Py; [| reflexivity].
  rewrite (Htie y x Py Px) in E. discriminate E.
Qed.

Lemma stable_sort_filter (p : A -> bool) (l : list A) :
  (forall a b, p a = true -> p b = true -> before a b = false) ->
  List.filter p (stable_sort before l) = List.filter p l.
Proof.
  intros Htie. induction l as [|x l IH]; [reflexivity |].
  cbn [stable_sort]. rewrite stable_insert_filter by exact Htie.
  cbn [List.filter]. rewrite IH. reflexivity.
Qed.

Hypothesis before_asym : forall a b, before a b = true -> before b a = false.
Hypothesis may_precede_trans :
  forall a b c, may_precede before a b -> may_precede before b c -> may_precede before a c.

Lemma stable_insert_sorted (x : A) (l : list A) :
  StronglySorted (may_precede before) l -> StronglySorted (may_precede before) (stable_insert before x l).
Proof.
  induction 1 as [|y l Hs IH Hy]; simpl.
  - constructor; constructor.
  - destruct (before y x) eqn:E.
    + constructor; [exact IH |].
      apply (Permutation_Forall (Permutation_sym (stable_insert_perm x l))).
      constructor; [apply before_asym; exact E | exact Hy].
    + constructor; [constructor; assumption |].
      constructor; [exact E |].
      eapply Forall_impl; [exact Hy |].
      intros z Hz. apply (may_precede_trans x y z); [exact E | exact Hz].
Qed.

Lemma stable_sort_sorted (l : list A) : StronglySorted (may_precede before) (stable_sort before l).
Proof.
  induction l as [|x l IH]; simpl; [constructor |].
  apply stable_insert_sorted, IH.
Qed.

End StableSort.

Lemma StronglySorted_firstn {A} (R : A -> A -> Prop) (n : nat) (l : list A) :
  StronglySorted R l -> StronglySorted R (firstn n l).
Proof.
  intros H. revert n. induction H as [|x l Hs IH Hx]; intros [|n]; simpl; try constructor.
  - apply IH.
  - apply Forall_take. exact Hx.
Qed.

Lemma StronglySorted_weaken {A} (R S : A -> A -> Prop) (l : list A) :
  (forall a b, R a b -> S a b) -> StronglySorted R l -> StronglySorted S l.
Proof.
  intros HRS. induction 1 as [|x l Hs IH Hx]; constructor; [exact IH |].
  eapply Forall_impl; [exact Hx |]. intros y. apply HRS.
Qed.

(** ** Ranking *)

Lemma sort_by_score_desc_sorted (scored : list MatchRankingItem) :
  StronglySorted no_worse (sort_by_score_desc scored).
Proof.
  unfold sort_by_score_desc.
  eapply StronglySorted_weaken;
    [| apply (stable_sort_sorted (fun y x => Py.Qlt_bool (score x) (score y)))].
  - intros a b H. unfold may_precede in H. apply Qlt_bool_false_iff in H. exact H.
  - intros a b H. apply Qlt_bool_iff in H. apply Qlt_bool_false_iff. lra.
  - unfold may_precede. intros a b c H1 H2.
    apply Qlt_bool_false_iff in H1, H2. apply Qlt_bool_false_iff. unfold no_worse. lra.
Qed.

Lemma sort_by_score_desc_ties (q : Q) (scored : list MatchRankingItem) :
  List.filter (fun x => Qeq_bool (score x) q) (sort_by_score_desc scored)
  = List.filter (fun x => Qeq_bool (score x) q) scored.
Proof.
  apply stable_sort_filter. intros a b Ha Hb.
  apply Qeq_bool_iff in Ha, Hb. apply Qlt_bool_false_iff. lra.
Qed.

(** C4, as amended. Whenever the ranking answers, the seeker exists and the
    results are the scored catalog sorted by score downwards, jobs of equal
    score in catalog order, cut to its first max(1, top_k) entries; so they
    hold min(max(1, top_k), catalog size) entries, at least one when the
    catalog is not empty. *)
Theorem ranking_sorted_stable_truncated (model : SbertModel) (today : date)
    (db : Session) (seeker_id top_k : Z) (resp : MatchRankingResponse) :
  rank_jobs_for_seeker_service model today seeker_id db top_k = Ok resp ->
  exists seeker,
    get_job_seeker db seeker_id = Some seeker /\
    let scored :=
      List.map (score_job model today (resolve_candidate_from_db today seeker))
        (job_postings db) in
    let limit := Z.to_nat (Z.max 1 top_k) in
    results resp = firstn limit (sort_by_score_desc scored) /\
    Permutation (sort_by_score_desc scored) scored /\
    StronglySorted no_worse (results resp) /\
    (forall q, exists rest,
        List.filter (fun x => Qeq_bool (score x) q) scored
        = List.filter (fun x => Qeq_bool (score x) q) (results resp) ++ rest) /\
    length (results resp) = Nat.min limit (length (job_postings db)) /\
    (1 <= limit)%nat /\
    (job_postings db <> [] -> (1 <= length (results resp))%nat).
Proof.
  unfold rank_jobs_for_seeker_service.
  destruct (get_job_seeker db seeker_id) as [seeker|]; [| discriminate].
  intros [= <-]. exists seeker. split; [reflexivity |].
  cbv zeta. cbn [results].
  set (scored := List.map (score_job model today (resolve_candidate_from_db today seeker))
                   (job_postings db)).
  set (limit := Z.to_nat (Z.max 1 top_k)).
  assert (Hlimit : (1 <= limit)%nat) by (subst limit; lia).
  assert (Hlen : length (firstn limit (sort_by_score_desc scored))
                 = Nat.min limit (length (job_postings db))).
  { rewrite length_firstn. unfold sort_by_score_desc. rewrite stable_sort_length.
    subst scored. rewrite length_map. reflexivity. }
  split; [reflexivity |].
  split; [apply stable_sort_perm |].
  split; [apply StronglySorted_firstn, sort_by_score_desc_sorted |].
  split.
  { intros q. exists (List.filter (fun x => Qeq_bool (score x) q)
                        (skipn limit (sort_by_score_desc scored))).
    rewrite <- List.filter_app, firstn_skipn. symmetry. apply sort_by_score_desc_ties. }
  split; [exact Hlen |].
  split; [exact Hlimit |].
  intros Hne. rewrite Hlen.
  destruct (job_postings db); [congruence | simpl; lia].
Qed.

Lemma ranking_sorted_stable_truncated_witness :
  exists resp,
    rank_jobs_for_seeker_service None 0%Z 1%Z (sample_db sample_catalog []) 0%Z = Ok resp /\
    length (results resp) = 1%nat.
Proof.
  eexists. split; [reflexivity |].
  destruct (ranking_sorted_stable_truncated None 0%Z (sample_db sample_catalog []) 1%Z 0%Z
              _ eq_refl) as (seeker & _ & _ & _ & _ & _ & Hlen & _).
  exact Hlen.
Defined.

(** C4, the statement as first worded fails on an empty catalog: with
    [top_k = 0] the ranking of a seeker that exists is empty. *)
Lemma ranking_empty_catalog_top_k_zero :
  ~ (forall resp,
       rank_jobs_for_seeker_service None 0%Z 1%Z (sample_db [] []) 0%Z = Ok resp ->
       (1 <= length (results resp))%nat).
Proof.
  intros H. specialize (H _ eq_refl). simpl in H. lia.
Qed.

(** ** Persistence *)





(** ** Priority codes and priority order *)

Lemma dict_get_In {V} (k : string) (v : V) (d : list (string * V)) :
  Py.dict_get k d = Some v -> In (k, v) d.
Proof.
  induction d as [|[k' v'] d IH]; simpl; [discriminate |].
  destruct (String.eqb_spec k' k) as [->|_].
  - intros [= ->]. left. reflexivity.
  - intros H. right. apply IH, H.
Qed.

Lemma aliases_canonical :
  forallb (fun kv => Py.contains (snd kv) factor_keys && Py.truthy (snd kv)) aliases = true.
Proof. vm_compute. reflexivity. Qed.

Lemma contains_In (x : string) (l : list string) : Py.contains x l = true -> In x l.
Proof.
  unfold Py.contains. rewrite existsb_exists. intros (y & Hy & E).
  apply String.eqb_eq in E. subst y. exact Hy.
Qed.

Lemma normalize_priority_code_canonical (raw : option string) (key : string) :
  _normalize_priority_code raw = Some key -> In key factor_keys /\ Py.truthy key = true.
Proof.
  unfold _normalize_priority_code. destruct raw as [raw|]; [| discriminate].
  destruct (negb (Py.truthy raw)); [discriminate |].
  intros H. apply dict_get_In in H.
  pose proof aliases_canonical as Hall. rewrite forallb_forall in Hall.
  specialize (Hall _ H). cbn [snd] in Hall. apply andb_true_iff in Hall as [Hc Ht].
  split; [apply contains_In, Hc | exact Ht].
Qed.

Lemma filter_twice {A} (p q : A -> bool) (l : list A) :
  List.filter p (List.filter q l) = List.filter (fun x => q x && p x) l.
Proof.
  induction l as [|x l IH]; [reflexivity |].
  cbn [List.filter]. destruct (q x); cbn [List.filter andb]; rewrite IH; reflexivity.
Qed.

Lemma keep_first_filter (p : string -> bool) (l : list string) :
  List.filter p (keep_first l) = keep_first (List.filter p l).
Proof.
  induction l as [|x l IH]; [reflexivity |].
  cbn [keep_first List.filter]. destruct (p x) eqn:Px.
  - cbn [keep_first]. f_equal. rewrite <- IH.
    rewrite !filter_twice. apply List.filter_ext. intros y. apply andb_comm.
  - rewrite <- IH. rewrite filter_twice. apply List.filter_ext.
    intros y. destruct (String.eqb_spec y x) as [->|_]; simpl.
    + symmetry. exact Px.
    + reflexivity.
Qed.

Lemma keep_first_In (x : string) (l : list string) : In x (keep_first l) <-> In x l.
Proof.
  induction l as [|y l IH]; [reflexivity |].
  cbn [keep_first In]. rewrite filter_In, IH.
  destruct (String.eqb_spec x y) as [->|Hne]; [tauto |].
  split; [tauto |]. intros [->|H]; [tauto |]. right. split; [exact H | reflexivity].
Qed.

Lemma keep_first_NoDup (l : list string) : NoDup (keep_first l).
Proof.
  induction l as [|x l IH]; cbn [keep_first]; constructor.
  - rewrite list_elem_of_In, filter_In. intros [_ H].
    rewrite String.eqb_refl in H. discriminate H.
  - apply NoDup_ListNoDup. apply List.NoDup_filter. apply NoDup_ListNoDup. exact IH.
Qed.

(** The loop of [_fetch_priority_order], from any starting [order]. *)
Lemma collect_priority_fold {T} `{PriorityRow T} (rows : list T) (order : list string) :
  fold_left collect_priority rows order
  = order ++ keep_first
               (List.filter (fun y => negb (Py.contains y order))
                  (omap (fun r => _normalize_priority_code (raw_code_of r)) rows)).
Proof.
  revert order. induction rows as [|r rows IH]; intros order.
  - simpl. rewrite app_nil_r. reflexivity.
  - cbn [fold_left omap list_omap]. rewrite IH. unfold collect_priority.
    destruct (_normalize_priority_code (raw_code_of r)) as [normalized|] eqn:E; [| reflexivity].
    apply normalize_priority_code_canonical in E as [_ Ht]. rewrite Ht.
    cbn [List.filter andb].
    destruct (Py.contains normalized order) eqn:C; cbn [negb]; [reflexivity |].
    rewrite <- app_assoc. cbn [app keep_first]. f_equal. f_equal.
    rewrite keep_first_filter, filter_twice.
    f_equal. apply List.filter_ext. intros y.
    unfold Py.contains. rewrite existsb_app. cbn [existsb]. rewrite orb_false_r.
    rewrite negb_orb. reflexivity.
Qed.

(** For every mapped class, the order fetched is the worded order of the
    codes the probing finds on the rows of the query. *)
Lemma fetch_priority_order_build {T} `{PriorityRow T} (table : list T) (seeker_id : Z) :
  _fetch_priority_order table seeker_id
  = build_priority_order (List.map raw_code_of (query_priorities table seeker_id)).
Proof.
  unfold _fetch_priority_order, build_priority_order.
  rewrite collect_priority_fold. cbn [app].
  rewrite (List.filter_ext _ (fun _ => true)) by reflexivity.
  rewrite List.filter_true.
  assert (E : forall l : list T,
             omap (fun r => _normalize_priority_code (raw_code_of r)) l
             = omap _normalize_priority_code (List.map raw_code_of l)).
  { induction l as [|r l IH]; [reflexivity |]. cbn [omap list_omap List.map]. rewrite IH. reflexivity. }
  rewrite E. destruct (keep_first _); reflexivity.
Qed.

Lemma query_priorities_sorted {T} `{PriorityRow T} (table : list T) (seeker_id : Z) :
  StronglySorted (fun a b => (order_by_column a <= order_by_column b)%Z)
    (query_priorities table seeker_id) /\
  Permutation (query_priorities table seeker_id)
    (List.filter (fun r => (col_job_seeker_id r =? seeker_id)%Z) table).
Proof.
  unfold query_priorities. split; [| apply stable_sort_perm].
  eapply StronglySorted_weaken; [| apply stable_sort_sorted].
  - intros a b Hab. unfold may_precede in Hab. apply Z.ltb_ge in Hab. exact Hab.
  - intros a b Hab. apply Z.ltb_lt in Hab. apply Z.ltb_ge. lia.
  - unfold may_precede. intros a b c H1 H2. apply Z.ltb_ge in H1, H2. apply Z.ltb_ge. lia.
Qed.

(** On the mapped class of this repository no probe finds a code, on any row. *)
Lemma fetch_priority_order_repository (table : list JobSeekerPriority.t) (seeker_id : Z) :
  _fetch_priority_order table seeker_id = default_priority_order.
Proof.
  rewrite fetch_priority_order_build. unfold build_priority_order.
  assert (E : forall rows : list JobSeekerPriority.t,
             omap _normalize_priority_code (List.map raw_code_of rows) = []).
  { induction rows as [|r rows IH]; [reflexivity | exact IH]. }
  rewrite E. reflexivity.
Qed.

(** ** Priority order in scoring and ranking *)

(** The total of [match_score_logic] is the worded total under the priority
    order carried by the candidate, whatever the third argument. *)
Lemma match_score_logic_total (model : SbertModel) (candidate : CandidateData.t)
    (job : JobData.t) (priority_order : list string) :
  (fst (match_score_logic model candidate job priority_order)
   == claimed_total (snd (match_score_logic model candidate job priority_order))
        (CandidateData.priority_order candidate))%Q.
Proof. cbn [match_score_logic fst snd]. apply total_of_claimed. Qed.

Lemma match_score_logic_argument_unused (model : SbertModel) (candidate : CandidateData.t)
    (job : JobData.t) (priority_order priority_order' : list string) :
  match_score_logic model candidate job priority_order
  = match_score_logic model candidate job priority_order'.
Proof. reflexivity. Qed.

(** The weights sum to at least the number of factors, so the quotient of the
    total is never a division by zero; a weight sum of zero can only come from
    an empty breakdown, and the total is then 0. *)
Lemma total_of_zero_weights (items : list (string * Q)) (priority_list : list string) :
  (weight_sum items priority_list == 0)%Q ->
  items = [] /\ (Py.round (total_of items priority_list) 2 == 0)%Q.
Proof.
  intros Hz. destruct items as [|kv rest]; [split; reflexivity |].
  exfalso. pose proof (weight_sum_pos kv rest priority_list) as Hpos.
  revert Hz Hpos. generalize (weight_sum (kv :: rest) priority_list). intros w Hz Hpos. lra.
Qed.

(** C2. [match_score_logic] takes the weights from [candidate.priority_order]
    and never reads its [priority_order] argument: the total is the worded
    total under the candidate's own order, whatever the argument. For a
    candidate carrying an empty order and the argument [location_score], the
    total is the plain average 81.25, where the weights of the argument give
    76.47. *)
Theorem match_score_logic_ignores_priority_argument :
  (forall model candidate job priority_order priority_order',
      match_score_logic model candidate job priority_order
      = match_score_logic model candidate job priority_order') /\
  (forall model candidate job priority_order,
      (fst (match_score_logic model candidate job priority_order)
       == claimed_total (snd (match_score_logic model candidate job priority_order))
            (CandidateData.priority_order candidate))%Q) /\
  let candidate := sample_candidate 5%Q 500%Z 100%Z [] in
  let job := sample_job 500%Z 100%Z None in
  let priority_order := ["location_score"]%string in
  let outcome := match_score_logic None candidate job priority_order in
  (fst outcome == 81.25)%Q /\
  (claimed_total (snd outcome) priority_order == 76.47)%Q.
Proof.
  split; [intros; apply match_score_logic_argument_unused |].
  split; [intros; apply match_score_logic_total |].
  cbv zeta. split; vm_compute; reflexivity.
Qed.

(** C5. On the rows of this repository's [JobSeekerPriority] the probes of
    [_fetch_priority_order] find no code, so the function returns the default
    order for every seeker. For a seeker whose rows hold, by rank, the
    categories "Location", "skill", "Skills", the rows come back in id order
    and the default order is returned, where the rows give [location_score,
    skill_score]. *)
Theorem fetch_priority_order_misses_stored_codes :
  (forall (table : list JobSeekerPriority.t) seeker_id,
      _fetch_priority_order table seeker_id = default_priority_order) /\
  _fetch_priority_order sample_priorities 1%Z
  = ["skill_score"; "job_title_score"; "salary_score"]%string /\
  stored_priority_order sample_priorities 1%Z = ["location_score"; "skill_score"]%string /\
  List.map JobSeekerPriority.id (query_priorities sample_priorities 1%Z) = [1; 2; 3]%Z /\
  List.map JobSeekerPriority.priority_rank (query_priorities sample_priorities 1%Z)
  = [Some 2; Some 1; Some 3]%Z.
Proof.
  split; [apply fetch_priority_order_repository |].
  repeat split; vm_compute; reflexivity.
Qed.

(** The alias table on the examples of the specification, and the dedup on
    rows that carry their code where the probes look. *)
Lemma normalize_priority_code_examples :
  _normalize_priority_code (Some "Skills"%string) = Some "skill_score"%string /\
  _normalize_priority_code (Some "comp"%string) = Some "salary_score"%string /\
  _normalize_priority_code (Some "unknown_code"%string) = None /\
  _normalize_priority_code (Some "  TITLE "%string) = Some "job_title_score"%string /\
  _normalize_priority_code (Some ""%string) = None /\
  _normalize_priority_code None = None /\
  _fetch_priority_order
    [ RankedPriority.mk 1 1 1 (Some "title"%string);
      RankedPriority.mk 2 1 2 (Some "skill"%string);
      RankedPriority.mk 3 1 3 (Some "title"%string) ] 1%Z
  = ["job_title_score"; "skill_score"]%string.
Proof.
  repeat split; vm_compute; reflexivity.
Qed.

Lemma normalize_priority_code_unknown (raw : string) :
  Py.dict_get (Py.lower (Py.strip raw)) aliases = None ->
  _normalize_priority_code (Some raw) = None.
Proof.
  intros H. unfold _normalize_priority_code. destruct (negb (Py.truthy raw)); [reflexivity | exact H].
Qed.

Lemma normalize_priority_code_case (raw raw' : string) :
  Py.truthy raw = true -> Py.truthy raw' = true ->
  Py.lower (Py.strip raw) = Py.lower (Py.strip raw') ->
  _normalize_priority_code (Some raw) = _normalize_priority_code (Some raw').
Proof.
  intros H1 H2 E. unfold _normalize_priority_code. rewrite H1, H2, E. reflexivity.
Qed.

(** The router's own candidate carries the order fetched from the rows. *)
Lemma router_candidate_priority_order (today : date) (seeker : JobSeeker.t) (db : Session) :
  CandidateData.priority_order (_resolve_candidate_from_db today seeker db)
  = _fetch_priority_order (job_seeker_priorities db) (JobSeeker.id seeker).
Proof. reflexivity. Qed.

(** The candidate of the ranking carries the fixed order, for every seeker. *)
Lemma resolve_candidate_priority_order (today : date) (seeker : JobSeeker.t) :
  CandidateData.priority_order (resolve_candidate_from_db today seeker)
  = default_priority_order.
Proof. reflexivity. Qed.

(** C1. The ranking scores every job under the fixed order [skill_score,
    job_title_score, salary_score] and never reads the priority rows. For a
    seeker whose rows give [location_score, skill_score], the catalog is
    scored 88.76, 77.53, 50.56, 50.56, where the seeker's own order gives
    88.64, 71.59, 48.86, 48.86, and the answer is the one given for a seeker
    without priority rows. *)
Theorem ranking_ignores_stored_priorities :
  (forall today seeker,
      CandidateData.priority_order (resolve_candidate_from_db today seeker)
      = ["skill_score"; "job_title_score"; "salary_score"]%string) /\
  let db := sample_db sample_catalog sample_priorities in
  let stored := stored_priority_order (job_seeker_priorities db) 1%Z in
  let candidate := resolve_candidate_from_db 0%Z sample_seeker in
  stored = ["location_score"; "skill_score"]%string /\
  (exists resp,
      rank_jobs_for_seeker_service None 0%Z 1%Z db 10%Z = Ok resp /\
      List.map job_posting_id (results resp) = [11; 13; 10; 12]%Z /\
      Forall2 Qeq (List.map score (results resp)) [88.76; 77.53; 50.56; 50.56]%Q /\
      Forall2 Qeq
        (List.map (fun item =>
                     match get_job_posting db (job_posting_id item) with
                     | Some job =>
                         fst (match_score_logic None (with_priority_order candidate stored)
                                (resolve_job_from_db 0%Z job) stored)
                     | None => 0%Q
                     end) (results resp))
        [88.64; 71.59; 48.86; 48.86]%Q) /\
  rank_jobs_for_seeker_service None 0%Z 1%Z db 10%Z
  = rank_jobs_for_seeker_service None 0%Z 1%Z (sample_db sample_catalog []) 10%Z.
Proof.
  split; [intros; apply resolve_candidate_priority_order |].
  cbv zeta. split; [vm_compute; reflexivity |].
  split; [| vm_compute; reflexivity].
  eexists. split; [reflexivity |].
  split; [vm_compute; reflexivity |].
  split; vm_compute; repeat constructor.
Qed.

(** * Further properties *)

(** ** More on the fallback similarity *)

Lemma Qdiv_eq_1 (x y : Q) : (0 < y)%Q -> ((x / y == 1)%Q <-> (x == y)%Q).
Proof.
  intros Hy. assert (Hne : ~ (y == 0)%Q) by (intros Hz; rewrite Hz in Hy; revert Hy; apply Qlt_irrefl).
  split; intros E.
  - rewrite <- (Qmult_div_r x y Hne), E. ring.
  - rewrite E. field. exact Hne.
Qed.

Lemma Qdiv_eq_0 (x y : Q) : (0 < y)%Q -> ((x / y == 0)%Q <-> (x == 0)%Q).
Proof.
  intros Hy. assert (Hne : ~ (y == 0)%Q) by (intros Hz; rewrite Hz in Hy; revert Hy; apply Qlt_irrefl).
  split; intros E.
  - rewrite <- (Qmult_div_r x y Hne), E. ring.
  - rewrite E. field. exact Hne.
Qed.

Lemma inject_nat_pos (b : nat) : (0 < b)%nat -> (0 < inject_Z (Z.of_nat b))%Q.
Proof. intros Hb. change 0%Q with (inject_Z 0). rewrite <- Zlt_Qlt. lia. Qed.

Lemma ratio_eq_1 (a b : nat) :
  (0 < b)%nat -> ((inject_Z (Z.of_nat a) / inject_Z (Z.of_nat b) == 1)%Q <-> a = b).
Proof.
  intros Hb. rewrite (Qdiv_eq_1 _ _ (inject_nat_pos b Hb)). split.
  - intros E. apply (proj1 (inject_Z_injective _ _)) in E. lia.
  - intros ->. reflexivity.
Qed.

Lemma ratio_eq_0 (a b : nat) :
  (0 < b)%nat -> ((inject_Z (Z.of_nat a) / inject_Z (Z.of_nat b) == 0)%Q <-> a = 0%nat).
Proof.
  intros Hb. rewrite (Qdiv_eq_0 _ _ (inject_nat_pos b Hb)). split.
  - intros E. change 0%Q with (inject_Z 0) in E. apply (proj1 (inject_Z_injective _ _)) in E. lia.
  - intros ->. reflexivity.
Qed.

Lemma token_set_empty (text : string) : token_set text = ∅ <-> Py.split text = [].
Proof.
  unfold token_set. split.
  - destruct (Py.split text) as [|x l]; [reflexivity |].
    intros E. exfalso.
    assert (Hx : x ∈ (list_to_set (x :: l) : gset string))
      by (rewrite elem_of_list_to_set; left).
    rewrite E in Hx. apply not_elem_of_empty in Hx. exact Hx.
  - intros ->. reflexivity.
Qed.

Lemma sbert_fallback_cases (text1 text2 : string) :
  (token_set text1 = ∅ \/ token_set text2 = ∅) /\ sbert_similarity None text1 text2 = 0%Q \/
  token_set text1 <> ∅ /\ token_set text2 <> ∅ /\
  (0 < size (token_set text1 ∪ token_set text2))%nat /\
  sbert_similarity None text1 text2
  = (inject_Z (Z.of_nat (size (token_set text1 ∩ token_set text2)))
     / inject_Z (Z.of_nat (size (token_set text1 ∪ token_set text2))))%Q.
Proof.
  unfold sbert_similarity. fold (token_set text1). fold (token_set text2).
  destruct (bool_decide (token_set text1 = ∅)) eqn:E1.
  { left. apply bool_decide_eq_true in E1. split; [left; exact E1 | reflexivity]. }
  destruct (bool_decide (token_set text2 = ∅)) eqn:E2.
  { left. apply bool_decide_eq_true in E2. split; [right; exact E2 | reflexivity]. }
  right. apply bool_decide_eq_false in E1, E2.
  split; [exact E1 |]. split; [exact E2 |]. split; [| reflexivity].
  assert (Hsub : (size (token_set text1) <= size (token_set text1 ∪ token_set text2))%nat)
    by (apply subseteq_size, union_subseteq_l).
  assert (Hne : size (token_set text1) <> 0%nat).
  { rewrite size_empty_iff. intros Hempty. apply E1, leibniz_equiv, Hempty. }
  lia.
Qed.

(** X1. With the SBERT backend disabled, two texts have similarity 1 exactly
    when they have the same token set and it is not empty; so a text with a
    token is at similarity 1 from itself, whatever the order and repetition
    of its tokens. *)
Theorem sbert_fallback_one_iff (text1 text2 : string) :
  ((sbert_similarity None text1 text2 == 1)%Q
   <-> token_set text1 = token_set text2 /\ Py.split text1 <> []) /\
  (Py.split text1 <> [] -> (sbert_similarity None text1 text1 == 1)%Q).
Proof.
  assert (Hiff : (sbert_similarity None text1 text2 == 1)%Q
                 <-> token_set text1 = token_set text2 /\ Py.split text1 <> []).
  { destruct (sbert_fallback_cases text1 text2) as [[Hempty ->]|(H1 & H2 & Hpos & ->)].
    - split; [intros E; discriminate E |].
      intros [Eq Hne]. exfalso. rewrite <- token_set_empty in Hne.
      destruct Hempty as [E|E]; [| rewrite <- Eq in E]; contradiction.
    - rewrite ratio_eq_1 by exact Hpos.
      rewrite <- token_set_empty. split.
      + intros Hsize. split; [| exact H1].
        assert (Heq : token_set text1 ∩ token_set text2 = token_set text1 ∪ token_set text2).
        { apply set_subseteq_size_eq; [| lia].
          etrans; [apply intersection_subseteq_l | apply union_subseteq_l]. }
        apply set_eq. intros x. split; intros Hx.
        * assert (Hu : x ∈ token_set text1 ∪ token_set text2) by (apply elem_of_union; left; exact Hx).
          rewrite <- Heq in Hu. apply elem_of_intersection in Hu. tauto.
        * assert (Hu : x ∈ token_set text1 ∪ token_set text2) by (apply elem_of_union; right; exact Hx).
          rewrite <- Heq in Hu. apply elem_of_intersection in Hu. tauto.
      + intros [Eq _]. rewrite <- Eq.
        rewrite (idemp_L (∩) (token_set text1)), (idemp_L (∪) (token_set text1)).
        reflexivity. }
  split; [exact Hiff |].
  intros Hne.
  destruct (sbert_fallback_cases text1 text1) as [[Hempty _]|(H1 & _ & Hpos & ->)].
  - exfalso. rewrite <- token_set_empty in Hne. destruct Hempty; contradiction.
  - apply ratio_eq_1; [exact Hpos |].
    rewrite (idemp_L (∩) (token_set text1)), (idemp_L (∪) (token_set text1)). reflexivity.
Qed.

Lemma sbert_fallback_one_iff_witness :
  (sbert_similarity None "python  sql python" "sql python" == 1)%Q.
Proof.
  destruct (sbert_fallback_one_iff "python  sql python" "sql python") as [[_ H] _].
  apply H. split; [vm_compute; reflexivity | discriminate].
Defined.

(** X2. With the SBERT backend disabled, the similarity is 0 exactly when the
    two texts share no token. *)
Theorem sbert_fallback_zero_iff (text1 text2 : string) :
  (sbert_similarity None text1 text2 == 0)%Q <-> token_set text1 ∩ token_set text2 = ∅.
Proof.
  destruct (sbert_fallback_cases text1 text2) as [[Hempty ->]|(H1 & H2 & Hpos & ->)].
  - split; [intros _ | reflexivity].
    destruct Hempty as [-> | ->].
    + apply (left_absorb_L ∅ (∩)).
    + apply (right_absorb_L ∅ (∩)).
  - rewrite ratio_eq_0 by exact Hpos. rewrite size_empty_iff.
    split; intros E; [apply leibniz_equiv, E | rewrite E; reflexivity].
Qed.

Lemma sbert_fallback_zero_iff_witness :
  (sbert_similarity None "python sql" "go rust" == 0)%Q.
Proof.
  destruct (sbert_fallback_zero_iff "python sql" "go rust") as [_ H].
  apply H. vm_compute. reflexivity.
Defined.

(** ** More on rounding *)

Lemma round_half_even_choice (x : Q) :
  Py.round_half_even x = Qfloor x \/ Py.round_half_even x = (Qfloor x + 1)%Z.
Proof.
  unfold Py.round_half_even.
  destruct ((x - inject_Z (Qfloor x)) ?= (1 # 2))%Q; [destruct (Z.even _) | |]; auto.
Qed.

(** Turns the outcome of a comparison of rationals into the order it states. *)
Ltac compare_fact H :=
  first [ apply (proj2 (Qeq_alt _ _)) in H
        | apply (proj2 (Qlt_alt _ _)) in H
        | apply (proj2 (Qgt_alt _ _)) in H ].

Lemma round_half_even_mono (x y : Q) :
  (x <= y)%Q -> (Py.round_half_even x <= Py.round_half_even y)%Z.
Proof.
  intros Hxy.
  assert (Hf : (Qfloor x <= Qfloor y)%Z) by (apply Qfloor_resp_le; exact Hxy).
  destruct (Z.eq_dec (Qfloor x) (Qfloor y)) as [E|Hne].
  - unfold Py.round_half_even. rewrite E.
    destruct ((x - inject_Z (Qfloor y)) ?= (1 # 2))%Q eqn:Cx;
      destruct ((y - inject_Z (Qfloor y)) ?= (1 # 2))%Q eqn:Cy;
      compare_fact Cx; compare_fact Cy;
      try (destruct (Z.even (Qfloor y)); lia); exfalso; lra.
  - destruct (round_half_even_choice x) as [-> | ->];
      destruct (round_half_even_choice y) as [-> | ->]; lia.
Qed.

Lemma round_mono (x y : Q) (n : nat) : (x <= y)%Q -> (Py.round x n <= Py.round y n)%Q.
Proof.
  intros Hxy. unfold Py.round.
  assert (Hs : (0 < inject_Z (10 ^ Z.of_nat n))%Q).
  { change 0%Q with (inject_Z 0). rewrite <- Zlt_Qlt. apply Z.pow_pos_nonneg; lia. }
  revert Hs. generalize (inject_Z (10 ^ Z.of_nat n)) as s. intros s Hs.
  assert (Hm : (Py.round_half_even (x * s) <= Py.round_half_even (y * s))%Z)
    by (apply round_half_even_mono; nra).
  rewrite Zle_Qle in Hm.
  apply Qle_shift_div_l; [exact Hs |].
  unfold Qdiv. rewrite <- Qmult_assoc, (Qmult_comm (/ s)), Qmult_inv_r, Qmult_1_r; [exact Hm |].
  intros Hz. rewrite Hz in Hs. revert Hs. apply Qlt_irrefl.
Qed.




(** ** More on the weights and the total *)

(** X3. [calculate_weight] reads the first three entries of the priority list
    only: a longer list weighs like its first three entries, a field outside
    them weighs 1.0, and every weight lies between 1.0 and 1.5. *)
Theorem calculate_weight_first_three (field : string) (priority_list : list string) :
  calculate_weight field priority_list = calculate_weight field (firstn 3 priority_list) /\
  (1 <= calculate_weight field priority_list <= 1.5)%Q /\
  (~ In field (firstn 3 priority_list) -> calculate_weight field priority_list = 1.0%Q).
Proof.
  rewrite !calculate_weight_by_position. unfold weight_by_position.
  assert (H0 : firstn 3 priority_list !! 0%nat = priority_list !! 0%nat)
    by (apply lookup_take_lt; lia).
  assert (H1 : firstn 3 priority_list !! 1%nat = priority_list !! 1%nat)
    by (apply lookup_take_lt; lia).
  assert (H2 : firstn 3 priority_list !! 2%nat = priority_list !! 2%nat)
    by (apply lookup_take_lt; lia).
  rewrite H0, H1, H2.
  split; [reflexivity |].
  split; [repeat case_bool_decide; lra |].
  intros Hnot.
  assert (Hno : forall i, firstn 3 priority_list !! i <> Some field).
  { intros i Hi. apply Hnot. apply list_elem_of_In. eapply list_elem_of_lookup_2. exact Hi. }
  pose proof (Hno 0%nat) as N0. pose proof (Hno 1%nat) as N1. pose proof (Hno 2%nat) as N2.
  rewrite H0 in N0. rewrite H1 in N1. rewrite H2 in N2.
  rewrite !bool_decide_eq_false_2 by assumption. reflexivity.
Qed.

Lemma calculate_weight_first_three_witness :
  calculate_weight "salary_score"
    ["skill_score"; "job_title_score"; "location_score"; "salary_score"]%string = 1.0%Q.
Proof.
  destruct (calculate_weight_first_three "salary_score"
              ["skill_score"; "job_title_score"; "location_score"; "salary_score"]%string)
    as (_ & _ & H).
  apply H. simpl. intros [E|[E|[E|[]]]]; discriminate E.
Defined.

Lemma weight_by_position_pos (key : string) (priority_order : list string) :
  (0 < weight_by_position key priority_order)%Q.
Proof. unfold weight_by_position. repeat case_bool_decide; lra. Qed.

Lemma sums_mono (items items' : list (string * Q)) (priority_order : list string) :
  Forall2 (fun kv kv' => fst kv = fst kv' /\ (snd kv <= snd kv')%Q) items items' ->
  (weight_sum items priority_order == weight_sum items' priority_order)%Q /\
  (weighted_sum items priority_order <= weighted_sum items' priority_order)%Q.
Proof.
  unfold weight_sum, weighted_sum.
  induction 1 as [|[k v] [k' v'] l l' [Hk Hv] _ [IHw IHs]].
  - split; [reflexivity | apply Qle_refl].
  - cbn [fst snd] in Hk, Hv. subst k'. cbn [List.map fst snd]. rewrite !sum_cons.
    pose proof (weight_by_position_pos k priority_order) as Hw.
    split; [rewrite IHw; reflexivity | nra].
Qed.

Lemma total_of_mono (items items' : list (string * Q)) (priority_list : list string) :
  Forall2 (fun kv kv' => fst kv = fst kv' /\ (snd kv <= snd kv')%Q) items items' ->
  (total_of items priority_list <= total_of items' priority_list)%Q.
Proof.
  intros Hall. destruct (sums_mono items items' priority_list Hall) as [Hw Hs].
  unfold total_of. rewrite !weigh_maps.
  destruct Hall as [|kv kv' rest rest' _ _].
  - apply Qle_refl.
  - change (weighted_sum (kv :: rest) priority_list / weight_sum (kv :: rest) priority_list * 100
            <= weighted_sum (kv' :: rest') priority_list
               / weight_sum (kv' :: rest') priority_list * 100)%Q.
    pose proof (weight_sum_pos kv rest priority_list) as Hpos.
    rewrite <- Hw.
    revert Hs Hpos.
    generalize (weight_sum (kv :: rest) priority_list) as w.
    generalize (weighted_sum (kv :: rest) priority_list) as s.
    generalize (weighted_sum (kv' :: rest') priority_list) as s'.
    intros s' s w Hs Hpos.
    assert (s / w <= s' / w)%Q.
    { apply Qle_shift_div_l; [exact Hpos |].
      unfold Qdiv. rewrite <- Qmult_assoc, (Qmult_comm (/ w)), Qmult_inv_r, Qmult_1_r;
        [exact Hs |].
      intros Hz. rewrite Hz in Hpos. revert Hpos. apply Qlt_irrefl. }
    lra.
Qed.

(** X4. The total of [match_score_logic] is monotone in the breakdown: under
    the same priority order, a breakdown that is nowhere lower gives a total
    that is not lower. *)
Theorem match_score_logic_monotone (model model' : SbertModel)
    (candidate candidate' : CandidateData.t) (job job' : JobData.t)
    (priority_order priority_order' : list string) :
  CandidateData.priority_order candidate = CandidateData.priority_order candidate' ->
  Forall2 (fun kv kv' => (snd kv <= snd kv')%Q)
    (snd (match_score_logic model candidate job priority_order))
    (snd (match_score_logic model' candidate' job' priority_order')) ->
  (fst (match_score_logic model candidate job priority_order)
   <= fst (match_score_logic model' candidate' job' priority_order'))%Q.
Proof.
  intros Hp Hall. cbn [match_score_logic fst snd] in *.
  apply round_mono. rewrite Hp. apply total_of_mono.
  rewrite !score_breakdown_entries in *.
  repeat match goal with
         | H : Forall2 _ (_ :: _) (_ :: _) |- _ =>
             apply Forall2_cons_1 in H; destruct H as [? H]
         end.
  repeat (apply Forall2_cons_2; [split; [reflexivity | assumption] |]).
  apply Forall2_nil_2.
Qed.

Lemma match_score_logic_monotone_witness :
  (fst (match_score_logic None (sample_candidate 5%Q 450%Z 100%Z []) (sample_job 500%Z 200%Z None) [])
   <= fst (match_score_logic None (sample_candidate 5%Q 500%Z 100%Z []) (sample_job 500%Z 100%Z None) []))%Q.
Proof.
  apply match_score_logic_monotone; [reflexivity |].
  vm_compute. repeat constructor; discriminate.
Defined.





(** ** More on the factors *)

(** Turns the boolean comparisons of rationals in the context into orders. *)
Ltac bool_to_order :=
  repeat match goal with
         | H : Py.Qlt_bool _ _ = true |- _ => apply Qlt_bool_iff in H
         | H : Py.Qlt_bool _ _ = false |- _ => apply Qlt_bool_false_iff in H
         | H : Qle_bool _ _ = true |- _ => apply Qle_bool_iff in H
         | H : Qle_bool _ _ = false |- _ => apply Qle_bool_false in H
         end.

Lemma experience_of_gap (years : Q) (required : option Q) (candidate : CandidateData.t)
    (job : JobData.t) :
  CandidateData.experience_years candidate = years ->
  JobData.experience_required job = required ->
  experience_score candidate job =
    if Py.Qlt_bool years 1 then 0.0%Q
    else match required with
         | None => 1.0%Q
         | Some required =>
             if Qle_bool (required - years) 0 then 1.0%Q
             else if Qle_bool (required - years) 3 then (1.0 - (required - years) / 6.0)%Q
             else 0.5%Q
         end.
Proof. intros <- <-. reflexivity. Qed.

(** X6. The experience factor never decreases when the candidate has more
    experience, and from one year of experience on it is at least 0.5. *)
Theorem experience_score_monotone (candidate candidate' : CandidateData.t) (job : JobData.t) :
  ((CandidateData.experience_years candidate <= CandidateData.experience_years candidate')%Q ->
   (experience_score candidate job <= experience_score candidate' job)%Q) /\
  ((1 <= CandidateData.experience_years candidate)%Q ->
   (1 # 2 <= experience_score candidate job)%Q).
Proof.
  rewrite (experience_of_gap _ _ candidate job eq_refl eq_refl).
  rewrite (experience_of_gap _ _ candidate' job eq_refl eq_refl).
  generalize (CandidateData.experience_years candidate) as y.
  generalize (CandidateData.experience_years candidate') as y'.
  intros y' y.
  destruct (JobData.experience_required job) as [r|].
  - assert (D : forall g : Q, (g / 6.0 == g * (1 # 6))%Q) by (intros g; field).
    split.
    + intros Hy.
      destruct (Py.Qlt_bool y 1) eqn:A; destruct (Py.Qlt_bool y' 1) eqn:A';
        destruct (Qle_bool (r - y) 0) eqn:B; destruct (Qle_bool (r - y') 0) eqn:B';
        destruct (Qle_bool (r - y) 3) eqn:C; destruct (Qle_bool (r - y') 3) eqn:C';
        bool_to_order; rewrite ?(D (r - y)%Q), ?(D (r - y')%Q); lra.
    + intros Hy.
      destruct (Py.Qlt_bool y 1) eqn:A; destruct (Qle_bool (r - y) 0) eqn:B;
        destruct (Qle_bool (r - y) 3) eqn:C;
        bool_to_order; rewrite ?(D (r - y)%Q); lra.
  - split; intros Hy.
    + destruct (Py.Qlt_bool y 1) eqn:A; destruct (Py.Qlt_bool y' 1) eqn:A';
        bool_to_order; lra.
    + destruct (Py.Qlt_bool y 1) eqn:A; bool_to_order; lra.
Qed.

Lemma experience_score_monotone_witness :
  (experience_score (sample_candidate 5%Q 500%Z 100%Z []) (sample_job 500%Z 100%Z (Some 8%Q))
   <= experience_score (sample_candidate 6%Q 500%Z 100%Z []) (sample_job 500%Z 100%Z (Some 8%Q)))%Q.
Proof.
  apply (experience_score_monotone (sample_candidate 5%Q 500%Z 100%Z [])
           (sample_candidate 6%Q 500%Z 100%Z []) (sample_job 500%Z 100%Z (Some 8%Q))).
  vm_compute. discriminate.
Defined.

(** The raw salary value max(0, 1 - gap/200) for an integer gap. *)
Lemma salary_raw_facts (gap : Z) :
  (0 <= gap)%Z ->
  let raw := Qmax 0.0 (1.0 - inject_Z gap / 200.0) in
  (0 <= raw <= 1)%Q /\
  ((raw == 0)%Q <-> (200 <= gap)%Z) /\
  ((raw == 1)%Q <-> gap = 0%Z) /\
  ((1 <= raw * 1.05)%Q <-> (gap <= 9)%Z).
Proof.
  intros Hgap raw.
  assert (HG : (0 <= inject_Z gap)%Q)
    by (change 0%Q with (inject_Z 0); rewrite <- Zle_Qle; exact Hgap).
  assert (H200 : (200 <= gap)%Z <-> (200 <= inject_Z gap)%Q)
    by (change 200%Q with (inject_Z 200); rewrite <- Zle_Qle; reflexivity).
  assert (H0 : gap = 0%Z <-> (inject_Z gap <= 0)%Q).
  { change 0%Q with (inject_Z 0). rewrite <- Zle_Qle. lia. }
  assert (H9 : (gap <= 9)%Z <-> (inject_Z gap * 21 <= 200)%Q).
  { change 21%Q with (inject_Z 21). change 200%Q with (inject_Z 200).
    rewrite <- inject_Z_mult, <- Zle_Qle. lia. }
  assert (D : (inject_Z gap / 200.0 == inject_Z gap * (1 # 200))%Q) by field.
  rewrite H200, H0, H9. subst raw.
  destruct (Q.max_spec 0.0 (1.0 - inject_Z gap / 200.0)) as [[Hlt E]|[Hle E]];
    revert E; generalize (Qmax 0.0 (1.0 - inject_Z gap / 200.0)) as raw; intros raw E;
    rewrite D in *; repeat split; intros; lra.
Qed.

(** X7. For a positive offer the salary factor is 1 exactly when the
    candidate asks for the offer or up to 9 units less, and 0 exactly when the
    desired salary is 200 units or more away from the offer; asking for more
    than the offer never scores higher than asking for as much less. *)
Theorem salary_score_extremes (candidate : CandidateData.t) (job : JobData.t) :
  let offer := JobData.salary job in
  let desired := CandidateData.desired_salary candidate in
  (0 < offer)%Z ->
  ((salary_score candidate job == 1)%Q <-> (offer - 9 <= desired <= offer)%Z) /\
  ((salary_score candidate job == 0)%Q <-> (200 <= Z.abs (desired - offer))%Z) /\
  (forall candidate',
      (desired <= offer)%Z ->
      (CandidateData.desired_salary candidate' - offer = offer - desired)%Z ->
      (salary_score candidate' job <= salary_score candidate job)%Q).
Proof.
  intros offer desired Hoffer.
  assert (Hform : forall c : CandidateData.t,
             salary_score c job =
               if (CandidateData.desired_salary c <=? offer)%Z
               then Qmin 1.0 (Qmax 0.0
                                (1.0 - inject_Z (Z.abs (CandidateData.desired_salary c - offer))
                                       / 200.0) * 1.05)
               else Qmax 0.0 (1.0 - inject_Z (Z.abs (CandidateData.desired_salary c - offer))
                                    / 200.0)).
  { intros c. unfold salary_score. fold offer.
    destruct (offer <=? 0)%Z eqn:E; [apply Z.leb_le in E; lia | reflexivity]. }
  rewrite !Hform. fold desired.
  pose proof (salary_raw_facts (Z.abs (desired - offer)) (Z.abs_nonneg _)) as F.
  cbv zeta in F. destruct F as (Hr & F0 & F1 & F9).
  split; [| split].
  - destruct (desired <=? offer)%Z eqn:E.
    + apply Z.leb_le in E.
      destruct (Q.min_spec 1.0 (Qmax 0.0 (1.0 - inject_Z (Z.abs (desired - offer)) / 200.0) * 1.05))
        as [[Hlt Em]|[Hle Em]]; rewrite Em.
      * split; [intros _ | reflexivity]. assert (Z.abs (desired - offer) <= 9)%Z by (apply F9; lra). lia.
      * split.
        -- intros E1. assert (Z.abs (desired - offer) <= 9)%Z by (apply F9; lra). lia.
        -- intros H9. assert (Z.abs (desired - offer) <= 9)%Z as H by lia. apply F9 in H. lra.
    + apply Z.leb_gt in E. rewrite F1. lia.
  - destruct (desired <=? offer)%Z eqn:E.
    + destruct (Q.min_spec 1.0 (Qmax 0.0 (1.0 - inject_Z (Z.abs (desired - offer)) / 200.0) * 1.05))
        as [[Hlt Em]|[Hle Em]]; rewrite Em; rewrite <- F0.
      * split; [intros E1; discriminate E1 | intros E0; rewrite E0 in Hlt; exfalso; lra].
      * split; intros E0; lra.
    + exact F0.
  - intros candidate' Hd Hgap. rewrite (Hform candidate'). apply Z.leb_le in Hd. rewrite Hd.
    assert (Eabs : Z.abs (CandidateData.desired_salary candidate' - offer) = Z.abs (desired - offer))
      by lia.
    rewrite Eabs.
    revert Hr. generalize (Qmax 0.0 (1.0 - inject_Z (Z.abs (desired - offer)) / 200.0)) as raw.
    intros raw Hr.
    assert (Hmin : (raw <= Qmin 1.0 (raw * 1.05))%Q) by (apply Q.min_glb; lra).
    destruct (CandidateData.desired_salary candidate' <=? offer)%Z; [apply Qle_refl | exact Hmin].
Qed.

Lemma salary_score_extremes_witness :
  (salary_score (sample_candidate 5%Q 491%Z 100%Z []) (sample_job 500%Z 100%Z None) == 1)%Q.
Proof.
  destruct (salary_score_extremes (sample_candidate 5%Q 491%Z 100%Z [])
              (sample_job 500%Z 100%Z None) ltac:(reflexivity)) as [[_ H] _].
  apply H. simpl. lia.
Defined.

(** X8. Empty text never reaches a division: a candidate without preference
    tags or a job without culture tags scores 0 on preference, an empty work
    style on either side scores 0 on work style, whatever the backend; with
    the SBERT backend disabled, a candidate or a job without skills scores 0
    on skills and an empty job preference or title scores 0 on the title. *)
Theorem empty_text_scores_zero (model : SbertModel) (candidate : CandidateData.t)
    (job : JobData.t) :
  (CandidateData.preference_tags candidate = [] \/ JobData.culture_tags job = [] ->
   preference_score model candidate job = 0.0%Q) /\
  (CandidateData.work_style_type candidate = EmptyString
   \/ JobData.work_style_type job = EmptyString ->
   work_score model candidate job = 0.0%Q) /\
  (CandidateData.skills candidate = []
   \/ JobData.required_skills job ++ JobData.optional_skills job = [] ->
   skill_score None candidate job = 0%Q) /\
  (CandidateData.job_preference candidate = EmptyString \/ JobData.job_title job = EmptyString ->
   job_score None candidate job = 0%Q).
Proof.
  repeat split.
  - unfold preference_score. intros [-> | ->]; cbn [Py.join Py.truthy andb]; [reflexivity |].
    rewrite andb_false_r. reflexivity.
  - unfold work_score. intros [-> | ->]; cbn [Py.truthy andb]; [reflexivity |].
    rewrite andb_false_r. reflexivity.
  - unfold skill_score. intros [-> | ->]; apply sbert_fallback_no_tokens; [left | right]; reflexivity.
  - unfold job_score. intros [-> | ->]; apply sbert_fallback_no_tokens; [left | right]; reflexivity.
Qed.

Lemma empty_text_scores_zero_witness :
  skill_score None (with_priority_order (sample_candidate 5%Q 500%Z 100%Z []) [])
    {| JobData.job_title := "backend engineer";
       JobData.job_location := "Tokyo";
       JobData.salary := 500;
       JobData.availability_required := 100%Z;
       JobData.work_style_type := "remote";
       JobData.required_skills := [];
       JobData.optional_skills := [];
       JobData.culture_tags := [];
       JobData.experience_required := None |} = 0%Q.
Proof.
  eapply (empty_text_scores_zero None). right. reflexivity.
Defined.

(** ** Rows to schema values *)

Lemma collect_skill_fold (links : list JobPostingSkill.t) (required optional : list string) :
  fold_left collect_skill links (required, optional)
  = (required ++ List.map job_skill_name (List.filter mandatory links),
     optional ++ List.map job_skill_name (List.filter (fun l => negb (mandatory l)) links)).
Proof.
  revert required optional. induction links as [|link links IH]; intros required optional.
  - simpl. rewrite !app_nil_r. reflexivity.
  - cbn [fold_left List.filter]. unfold collect_skill at 2. fold (mandatory link).
    destruct (mandatory link); cbn [negb List.map]; rewrite IH, <- app_assoc; reflexivity.
Qed.

Lemma resolve_job_no_requirement (today : date) (job : JobPosting.t) :
  JobData.experience_required (resolve_job_from_db today job) = None.
Proof. unfold resolve_job_from_db. rewrite collect_skill_fold. reflexivity. Qed.

(** X9. [resolve_job_from_db] sends every skill link to exactly one of the two
    lists, in the order of the links: the mandatory ones to [required_skills],
    the others, a NULL flag included, to [optional_skills]; and it never sets
    an experience requirement. *)
Theorem resolve_job_skills_partition (today : date) (job : JobPosting.t) :
  let jobdata := resolve_job_from_db today job in
  JobData.required_skills jobdata
  = List.map job_skill_name (List.filter mandatory (JobPosting.skills job)) /\
  JobData.optional_skills jobdata
  = List.map job_skill_name
      (List.filter (fun link => negb (mandatory link)) (JobPosting.skills job)) /\
  Permutation (JobData.required_skills jobdata ++ JobData.optional_skills jobdata)
    (List.map job_skill_name (JobPosting.skills job)) /\
  JobData.experience_required jobdata = None.
Proof.
  cbv zeta. unfold resolve_job_from_db. rewrite collect_skill_fold. cbn [app].
  cbn [JobData.required_skills JobData.optional_skills JobData.experience_required].
  split; [reflexivity |]. split; [reflexivity |]. split; [| reflexivity].
  induction (JobPosting.skills job) as [|link links IH]; [reflexivity |].
  cbn [List.filter List.map]. destruct (mandatory link); cbn [negb List.map app].
  - constructor. exact IH.
  - rewrite <- Permutation_middle. constructor. exact IH.
Qed.

Lemma history_years_fold (histories : list JobHistory.t) (start : Q) :
  (fold_left (fun total_years h =>
                total_years + inject_Z (or_default (JobHistory.years_of_experience h) 0%Z))
     histories start
   == start + inject_Z (fold_right Z.add 0%Z
                          (List.map (fun h => or_default (JobHistory.years_of_experience h) 0%Z)
                             histories)))%Q.
Proof.
  revert start. induction histories as [|h histories IH]; intros start.
  - simpl. change (inject_Z 0) with 0%Q. ring.
  - cbn [fold_left List.map fold_right]. rewrite IH, inject_Z_plus. ring.
Qed.

(** X10. In the id-based services the experience factor is all or nothing: the
    candidate's years are the sum of the whole years of the history rows, a
    NULL counting for 0, and since no job carries a requirement the factor is
    1 when that sum is at least 1 and 0 otherwise. *)
Theorem id_based_experience_all_or_nothing (today : date) (seeker : JobSeeker.t)
    (job : JobPosting.t) :
  let candidate := resolve_candidate_from_db today seeker in
  let jobdata := resolve_job_from_db today job in
  (CandidateData.experience_years candidate == inject_Z (history_years seeker))%Q /\
  ((1 <= history_years seeker)%Z -> (experience_score candidate jobdata == 1)%Q) /\
  ((history_years seeker <= 0)%Z -> (experience_score candidate jobdata == 0)%Q).
Proof.
  cbv zeta.
  assert (Hy : (CandidateData.experience_years (resolve_candidate_from_db today seeker)
                == inject_Z (history_years seeker))%Q).
  { cbn [resolve_candidate_from_db CandidateData.experience_years].
    rewrite history_years_fold. unfold history_years. ring. }
  assert (Hr : JobData.experience_required (resolve_job_from_db today job) = None)
    by apply resolve_job_no_requirement.
  split; [exact Hy |].
  unfold experience_score. rewrite Hr.
  split; intros Hh.
  - assert (H1 : (1 <= inject_Z (history_years seeker))%Q)
      by (change 1%Q with (inject_Z 1); rewrite <- Zle_Qle; exact Hh).
    destruct (Py.Qlt_bool _ 1) eqn:E; [| reflexivity].
    apply Qlt_bool_iff in E. rewrite Hy in E. exfalso. lra.
  - assert (H0 : (inject_Z (history_years seeker) <= 0)%Q)
      by (change 0%Q with (inject_Z 0); rewrite <- Zle_Qle; exact Hh).
    destruct (Py.Qlt_bool _ 1) eqn:E; [reflexivity |].
    apply Qlt_bool_false_iff in E. rewrite Hy in E. exfalso. lra.
Qed.

Lemma id_based_experience_all_or_nothing_witness :
  (experience_score (resolve_candidate_from_db 0%Z sample_seeker)
     (resolve_job_from_db 0%Z (sample_posting 11 "backend engineer" "Tokyo" 500)) == 1)%Q.
Proof.
  destruct (id_based_experience_all_or_nothing 0%Z sample_seeker
              (sample_posting 11 "backend engineer" "Tokyo" 500)) as (_ & H & _).
  apply H. vm_compute. discriminate.
Defined.

(** ** The id-based services: errors and what is written *)

Lemma get_job_seeker_id (db : Session) (seeker_id : Z) (seeker : JobSeeker.t) :
  get_job_seeker db seeker_id = Some seeker ->
  JobSeeker.id seeker = seeker_id /\ In seeker (job_seekers db).
Proof.
  unfold get_job_seeker. intros H. apply find_some in H as [Hin E].
  apply Z.eqb_eq in E. split; assumption.
Qed.

Lemma get_job_posting_id (db : Session) (job_id : Z) (job : JobPosting.t) :
  get_job_posting db job_id = Some job ->
  JobPosting.id job = job_id /\ In job (job_postings db).
Proof.
  unfold get_job_posting. intros H. apply find_some in H as [Hin E].
  apply Z.eqb_eq in E. split; assumption.
Qed.

Lemma try_persist_accepted (record : MatchingScore.t) (db : Session) :
  matching_scores (try_persist commit_succeeds record db)
  = matching_scores db ++ pending db ++ [record] /\
  pending (try_persist commit_succeeds record db) = [].
Proof. split; reflexivity. Qed.

(** X11. [match_by_id_service] raises its [ValueError] exactly when the seeker
    or the job is missing, and then leaves the session as it was. When both
    exist and the backend accepts the commit, what is stored is one record
    with the ids of the request and the score and breakdown of the response,
    without explanation. *)
Theorem match_by_id_service_outcomes (model : SbertModel) (today : date)
    (float_str : Q -> string) (commit_error : Session -> option Exception)
    (seeker_id job_id : Z) (db : Session) :
  (fst (match_by_id_service model today float_str commit_error seeker_id job_id db)
   = Raise (ValueError "job_seeker or job_posting not found")
   <-> get_job_seeker db seeker_id = None \/ get_job_posting db job_id = None) /\
  (get_job_seeker db seeker_id = None \/ get_job_posting db job_id = None ->
   snd (match_by_id_service model today float_str commit_error seeker_id job_id db) = db) /\
  (forall resp,
      fst (match_by_id_service model today float_str commit_succeeds seeker_id job_id db) = Ok resp ->
      matching_scores
        (snd (match_by_id_service model today float_str commit_succeeds seeker_id job_id db))
      = matching_scores db ++ pending db
        ++ [ {| MatchingScore.job_seeker_id := seeker_id;
                MatchingScore.job_posting_id := job_id;
                MatchingScore.score := match_score resp;
                MatchingScore.breakdown := breakdown resp;
                MatchingScore.explanation := None |} ]).
Proof.
  unfold match_by_id_service.
  destruct (get_job_seeker db seeker_id) as [seeker|] eqn:Hs;
    [destruct (get_job_posting db job_id) as [job|] eqn:Hj |].
  - apply get_job_seeker_id in Hs as [Hs _]. apply get_job_posting_id in Hj as [Hj _].
    unfold match_score_logic. cbv zeta. cbn [fst snd].
    split; [split; [discriminate | intros [H|H]; discriminate H] |].
    split; [intros [H|H]; discriminate H |].
    intros resp [= <-]. cbn [match_score breakdown]. rewrite Hs, Hj. reflexivity.
  - cbn [fst snd]. split; [split; [intros _; right; reflexivity | reflexivity] |].
    split; [reflexivity | intros resp H; discriminate H].
  - cbn [fst snd]. split; [split; [intros _; left; reflexivity | reflexivity] |].
    split; [reflexivity | intros resp H; discriminate H].
Qed.

Lemma match_by_id_service_outcomes_witness :
  snd (match_by_id_service None 0%Z sample_float_str commit_fails 7%Z 11%Z
         (sample_db sample_catalog []))
  = sample_db sample_catalog [].
Proof.
  destruct (match_by_id_service_outcomes None 0%Z sample_float_str commit_fails 7%Z 11%Z
              (sample_db sample_catalog [])) as (_ & H & _).
  apply H. left. reflexivity.
Defined.

(** X12. [match_by_id_with_reason_service] stores the explanation it returns:
    when the seeker and the job exist and the backend accepts the commit, the
    stored record carries the ids of the request, the score and breakdown of
    the response and its reason; the score, message and breakdown it answers
    are those of [match_by_id_service] on the same request. *)
Theorem match_by_id_with_reason_stores_reason (model : SbertModel) (today : date)
    (float_str : Q -> string) (generate_match_reason : string -> string)
    (commit_error : Session -> option Exception) (seeker_id job_id : Z) (db : Session) :
  (fst (match_by_id_with_reason_service model today float_str generate_match_reason
          commit_error seeker_id job_id db)
   = Raise (ValueError "job_seeker or job_posting not found")
   <-> get_job_seeker db seeker_id = None \/ get_job_posting db job_id = None) /\
  (forall resp,
      fst (match_by_id_with_reason_service model today float_str generate_match_reason
             commit_succeeds seeker_id job_id db) = Ok resp ->
      matching_scores
        (snd (match_by_id_with_reason_service model today float_str generate_match_reason
                commit_succeeds seeker_id job_id db))
      = matching_scores db ++ pending db
        ++ [ {| MatchingScore.job_seeker_id := seeker_id;
                MatchingScore.job_posting_id := job_id;
                MatchingScore.score := wr_match_score resp;
                MatchingScore.breakdown := wr_breakdown resp;
                MatchingScore.explanation := Some (reason resp) |} ]) /\
  (forall resp resp',
      fst (match_by_id_with_reason_service model today float_str generate_match_reason
             commit_error seeker_id job_id db) = Ok resp ->
      fst (match_by_id_service model today float_str commit_error seeker_id job_id db) = Ok resp' ->
      wr_match_score resp = match_score resp' /\
      wr_message resp = message resp' /\
      wr_breakdown resp = breakdown resp').
Proof.
  unfold match_by_id_with_reason_service, match_by_id_service.
  destruct (get_job_seeker db seeker_id) as [seeker|] eqn:Hs;
    [destruct (get_job_posting db job_id) as [job|] eqn:Hj |].
  - apply get_job_seeker_id in Hs as [Hs _]. apply get_job_posting_id in Hj as [Hj _].
    unfold match_score_logic. cbv zeta. cbn [fst snd].
    split; [split; [discriminate | intros [H|H]; discriminate H] |].
    split.
    + intros resp [= <-]. cbn [wr_match_score wr_breakdown reason]. rewrite Hs, Hj. reflexivity.
    + intros resp resp' [= <-] [= <-]. repeat split.
  - cbn [fst snd]. split; [split; [intros _; right; reflexivity | reflexivity] |].
    split; [intros resp H; discriminate H | intros resp resp' H; discriminate H].
  - cbn [fst snd]. split; [split; [intros _; left; reflexivity | reflexivity] |].
    split; [intros resp H; discriminate H | intros resp resp' H; discriminate H].
Qed.

Lemma match_by_id_with_reason_stores_reason_witness :
  exists record,
    matching_scores
      (snd (match_by_id_with_reason_service None 0%Z sample_float_str sample_reason
              commit_succeeds 1%Z 11%Z (sample_db sample_catalog [])))
    = [record] /\
    MatchingScore.job_posting_id record = 11%Z.
Proof.
  destruct (match_by_id_with_reason_stores_reason None 0%Z sample_float_str sample_reason
              commit_succeeds 1%Z 11%Z (sample_db sample_catalog [])) as (_ & H & _).
  eexists. split; [apply H; reflexivity | reflexivity].
Defined.

(** ** More on the ranking *)

Lemma ranking_results (model : SbertModel) (today : date) (db : Session)
    (seeker_id top_k : Z) (seeker : JobSeeker.t) :
  get_job_seeker db seeker_id = Some seeker ->
  rank_jobs_for_seeker_service model today seeker_id db top_k
  = Ok {| job_seeker_id := seeker_id;
          results := firstn (ranking_limit top_k)
                       (sort_by_score_desc (scored_catalog model today seeker db)) |}.
Proof. intros H. unfold rank_jobs_for_seeker_service. rewrite H. reflexivity. Qed.

Lemma StronglySorted_app_cross {A} (R : A -> A -> Prop) (l1 l2 : list A) :
  StronglySorted R (l1 ++ l2) -> forall x y, In x l1 -> In y l2 -> R x y.
Proof.
  induction l1 as [|a l1 IH]; intros Hs x y Hx Hy; [destruct Hx |].
  cbn [app] in Hs. apply StronglySorted_inv in Hs as [Hs Ha].
  destruct Hx as [->|Hx].
  - rewrite List.Forall_forall in Ha. apply Ha. apply in_or_app. right. exact Hy.
  - apply IH; assumption.
Qed.

(** X13. The ranking keeps the best: whenever it answers, the jobs it returns
    and the jobs it leaves out make up the scored catalog, and no job left
    out scores more than a job returned. *)
Theorem ranking_keeps_the_best (model : SbertModel) (today : date) (db : Session)
    (seeker_id top_k : Z) (resp : MatchRankingResponse) :
  rank_jobs_for_seeker_service model today seeker_id db top_k = Ok resp ->
  exists seeker left_out,
    get_job_seeker db seeker_id = Some seeker /\
    Permutation (results resp ++ left_out) (scored_catalog model today seeker db) /\
    (forall kept dropped,
        In kept (results resp) -> In dropped left_out -> (score dropped <= score kept)%Q).
Proof.
  intros Hrank. unfold rank_jobs_for_seeker_service in Hrank.
  destruct (get_job_seeker db seeker_id) as [seeker|]; [| discriminate Hrank].
  injection Hrank as <-. exists seeker.
  exists (skipn (ranking_limit top_k)
            (sort_by_score_desc (scored_catalog model today seeker db))).
  split; [reflexivity |]. cbn [results]. split.
  - unfold ranking_limit, scored_catalog. rewrite firstn_skipn. apply stable_sort_perm.
  - apply (StronglySorted_app_cross no_worse).
    unfold ranking_limit, scored_catalog. rewrite firstn_skipn.
    apply sort_by_score_desc_sorted.
Qed.

Lemma ranking_keeps_the_best_witness :
  exists resp left_out,
    rank_jobs_for_seeker_service None 0%Z 1%Z (sample_db sample_catalog []) 2%Z = Ok resp /\
    Permutation (results resp ++ left_out)
      (scored_catalog None 0%Z sample_seeker (sample_db sample_catalog [])).
Proof.
  eexists.
  destruct (ranking_keeps_the_best None 0%Z (sample_db sample_catalog []) 1%Z 2%Z _ eq_refl)
    as (seeker & left_out & Hs & Hperm & _).
  exists left_out. split; [reflexivity |].
  injection Hs as <-. exact Hperm.
Defined.

(** X14. Asking for more never reorders: when the ranking answers for some
    [top_k'], it answers for every smaller [top_k] with the first
    max(1, top_k) entries of that answer, and once [top_k'] reaches the size of
    the catalog every job is returned. *)
Theorem ranking_top_k_prefix (model : SbertModel) (today : date) (db : Session)
    (seeker_id top_k top_k' : Z) (resp' : MatchRankingResponse) :
  rank_jobs_for_seeker_service model today seeker_id db top_k' = Ok resp' ->
  (top_k <= top_k')%Z ->
  exists resp seeker,
    rank_jobs_for_seeker_service model today seeker_id db top_k = Ok resp /\
    results resp = firstn (ranking_limit top_k) (results resp') /\
    get_job_seeker db seeker_id = Some seeker /\
    ((Z.of_nat (length (job_postings db)) <= top_k')%Z ->
     Permutation (results resp') (scored_catalog model today seeker db)).
Proof.
  intros Hrank Hle. unfold rank_jobs_for_seeker_service in *.
  destruct (get_job_seeker db seeker_id) as [seeker|]; [| discriminate Hrank].
  injection Hrank as <-. eexists. exists seeker.
  split; [reflexivity |]. cbn [results]. split; [| split; [reflexivity |]].
  - rewrite firstn_firstn. f_equal. unfold ranking_limit. lia.
  - intros Hall. rewrite firstn_all2; [apply stable_sort_perm |].
    unfold sort_by_score_desc. rewrite stable_sort_length, length_map. lia.
Qed.

Lemma ranking_top_k_prefix_witness :
  exists resp resp',
    rank_jobs_for_seeker_service None 0%Z 1%Z (sample_db sample_catalog []) 1%Z = Ok resp /\
    rank_jobs_for_seeker_service None 0%Z 1%Z (sample_db sample_catalog []) 3%Z = Ok resp' /\
    results resp = firstn 1 (results resp').
Proof.
  destruct (ranking_top_k_prefix None 0%Z (sample_db sample_catalog []) 1%Z 1%Z 3%Z _
              eq_refl ltac:(lia)) as (resp & seeker & H1 & H2 & _).
  exists resp. eexists. split; [exact H1 |]. split; [reflexivity | exact H2].
Defined.

Lemma find_unique_posting (postings : list JobPosting.t) (job : JobPosting.t) :
  NoDup (List.map JobPosting.id postings) ->
  In job postings ->
  List.find (fun j => (JobPosting.id j =? JobPosting.id job)%Z) postings = Some job.
Proof.
  induction postings as [|p postings IH]; intros Hnd Hin; [destruct Hin |].
  cbn [List.map] in Hnd. apply NoDup_cons in Hnd as [Hp Hnd].
  cbn [List.find]. destruct (Z.eqb_spec (JobPosting.id p) (JobPosting.id job)) as [E|Hne].
  - destruct Hin as [->|Hin]; [reflexivity |].
    exfalso. apply Hp. rewrite E. apply list_elem_of_In. apply in_map. exact Hin.
  - destruct Hin as [->|Hin]; [congruence |]. apply IH; assumption.
Qed.

Lemma In_firstn {A} (n : nat) (l : list A) (x : A) : In x (firstn n l) -> In x l.
Proof.
  intros H. rewrite <- (firstn_skipn n l). apply in_or_app. left. exact H.
Qed.

Lemma results_from_catalog (model : SbertModel) (today : date) (db : Session)
    (top_k : Z) (seeker : JobSeeker.t) (item : MatchRankingItem) :
  In item (firstn (ranking_limit top_k)
             (sort_by_score_desc (scored_catalog model today seeker db))) ->
  exists job, In job (job_postings db) /\
              item = score_job model today (resolve_candidate_from_db today seeker) job.
Proof.
  intros Hin. apply In_firstn in Hin.
  apply (Permutation_in _ (stable_sort_perm _ _)) in Hin.
  unfold scored_catalog in Hin. apply in_map_iff in Hin as (job & E & Hjob).
  exists job. split; [exact Hjob | symmetry; exact E].
Qed.

(** X15. The ranking and [match_by_id_service] agree: when the posting ids are
    unique, every item of the ranking carries the score and the breakdown
    that [match_by_id_service] answers for that seeker and that job. *)
Theorem ranking_agrees_with_match_by_id (model : SbertModel) (today : date)
    (float_str : Q -> string) (commit_error : Session -> option Exception)
    (db : Session) (seeker_id top_k : Z) (resp : MatchRankingResponse)
    (item : MatchRankingItem) :
  NoDup (List.map JobPosting.id (job_postings db)) ->
  rank_jobs_for_seeker_service model today seeker_id db top_k = Ok resp ->
  In item (results resp) ->
  exists answer,
    fst (match_by_id_service model today float_str commit_error seeker_id
           (job_posting_id item) db) = Ok answer /\
    match_score answer = score item /\
    breakdown answer = item_breakdown item.
Proof.
  intros Hnd Hrank Hin. unfold rank_jobs_for_seeker_service in Hrank.
  destruct (get_job_seeker db seeker_id) as [seeker|] eqn:Hget; [| discriminate Hrank].
  injection Hrank as <-. cbn [results] in Hin.
  apply (results_from_catalog model today db top_k seeker item) in Hin as (job & Hjob & ->).
  unfold match_by_id_service. rewrite Hget.
  unfold score_job at 1. unfold match_score_logic at 1. cbv zeta. cbn [job_posting_id].
  unfold get_job_posting. rewrite (find_unique_posting _ job Hnd Hjob).
  unfold match_score_logic. cbv zeta. cbn [fst].
  eexists. split; [reflexivity |]. split; reflexivity.
Qed.

Lemma ranking_agrees_with_match_by_id_witness :
  exists answer,
    fst (match_by_id_service None 0%Z sample_float_str commit_fails 1%Z 11%Z
           (sample_db sample_catalog [])) = Ok answer /\
    (match_score answer == 88.76)%Q.
Proof.
  assert (Hin : In (score_job None 0%Z (resolve_candidate_from_db 0%Z sample_seeker)
                      (sample_posting 11 "backend engineer" "Tokyo" 500))
                   (results {| job_seeker_id := 1%Z;
                               results := firstn (ranking_limit 1)
                                 (sort_by_score_desc
                                    (scored_catalog None 0%Z sample_seeker
                                       (sample_db sample_catalog []))) |})).
  { vm_compute. left. reflexivity. }
  destruct (ranking_agrees_with_match_by_id None 0%Z sample_float_str commit_fails
              (sample_db sample_catalog []) 1%Z 1%Z _ _
              ltac:(apply (bool_decide_unpack _); vm_compute; exact I)
              (ranking_results None 0%Z (sample_db sample_catalog []) 1%Z 1%Z
                 sample_seeker eq_refl) Hin) as (answer & Ha & Hs & _).
  exists answer. split; [exact Ha |]. rewrite Hs. vm_compute. reflexivity.
Defined.

(** X16. The ranking raises its [ValueError] exactly when the seeker is
    missing. Otherwise every item it returns is a posting of the catalog with
    its id, its title (empty for a NULL title) and its score, and postings
    with distinct ids give items with distinct ids. *)
Theorem ranking_items_from_catalog (model : SbertModel) (today : date) (db : Session)
    (seeker_id top_k : Z) :
  (rank_jobs_for_seeker_service model today seeker_id db top_k
   = Raise (ValueError "job_seeker not found")
   <-> get_job_seeker db seeker_id = None) /\
  (forall resp,
      rank_jobs_for_seeker_service model today seeker_id db top_k = Ok resp ->
      job_seeker_id resp = seeker_id /\
      (forall item, In item (results resp) ->
         exists job, In job (job_postings db) /\
                     job_posting_id item = JobPosting.id job /\
                     title item = or_empty (JobPosting.title job)) /\
      (NoDup (List.map JobPosting.id (job_postings db)) ->
       NoDup (List.map job_posting_id (results resp)))).
Proof.
  unfold rank_jobs_for_seeker_service.
  destruct (get_job_seeker db seeker_id) as [seeker|] eqn:Hget.
  - split; [split; discriminate |].
    intros resp [= <-]. cbn [job_seeker_id results]. split; [reflexivity |]. split.
    + intros item Hin.
      apply (results_from_catalog model today db top_k seeker item) in Hin as (job & Hjob & ->).
      exists job. split; [exact Hjob |]. unfold score_job, match_score_logic. cbv zeta.
      split; reflexivity.
    + intros Hnd.
      assert (Hids : List.map job_posting_id (scored_catalog model today seeker db)
                     = List.map JobPosting.id (job_postings db)).
      { unfold scored_catalog. rewrite List.map_map. apply List.map_ext. intros job.
        unfold score_job, match_score_logic. cbv zeta. reflexivity. }
      rewrite <- Hids in Hnd.
      assert (Hsorted : NoDup (List.map job_posting_id
                                 (sort_by_score_desc (scored_catalog model today seeker db)))).
      { assert (Hp : Permutation
                       (List.map job_posting_id
                          (sort_by_score_desc (scored_catalog model today seeker db)))
                       (List.map job_posting_id (scored_catalog model today seeker db)))
          by (apply Permutation_map, stable_sort_perm).
        rewrite Hp. exact Hnd. }
      rewrite <- (firstn_skipn (Z.to_nat (Z.max 1 top_k))
                    (sort_by_score_desc (scored_catalog model today seeker db))) in Hsorted.
      rewrite List.map_app in Hsorted. apply NoDup_app in Hsorted as [H _]. exact H.
  - split; [split; reflexivity |]. intros resp H. discriminate H.
Qed.

Lemma ranking_items_from_catalog_witness :
  rank_jobs_for_seeker_service None 0%Z 7%Z (sample_db sample_catalog []) 3%Z
  = Raise (ValueError "job_seeker not found").
Proof.
  destruct (ranking_items_from_catalog None 0%Z (sample_db sample_catalog []) 7%Z 3%Z)
    as [[_ H] _].
  apply H. reflexivity.
Defined.

(** ** More on priority codes *)

(** Every key the alias table maps to is mapped to itself. *)
Lemma aliases_fixed :
  forallb (fun kv =>
             match _normalize_priority_code (Some (snd kv)) with
             | Some key => String.eqb key (snd kv)
             | None => false
             end) aliases = true.
Proof. vm_compute. reflexivity. Qed.

Lemma factor_keys_fixed :
  forallb (fun key =>
             match _normalize_priority_code (Some key) with
             | Some key' => String.eqb key' key
             | None => false
             end) factor_keys = true.
Proof. vm_compute. reflexivity. Qed.

(** X17. Normalising is idempotent: whatever [_normalize_priority_code]
    answers is one of the eight breakdown keys and is left as it is by a second
    pass; and each of the eight keys is accepted under its own name. *)
Theorem normalize_priority_code_idempotent (raw : option string) (key : string) :
  _normalize_priority_code raw = Some key ->
  In key factor_keys /\
  _normalize_priority_code (Some key) = Some key /\
  (forall key', In key' factor_keys -> _normalize_priority_code (Some key') = Some key').
Proof.
  intros H. split; [apply (normalize_priority_code_canonical raw), H |]. split.
  - unfold _normalize_priority_code in H. destruct raw as [raw|]; [| discriminate H].
    destruct (negb (Py.truthy raw)); [discriminate H |].
    apply dict_get_In in H.
    pose proof aliases_fixed as Hall. rewrite forallb_forall in Hall.
    specialize (Hall _ H). cbn [snd] in Hall.
    destruct (_normalize_priority_code (Some key)) as [key2|]; [| discriminate Hall].
    apply String.eqb_eq in Hall. subst key2. reflexivity.
  - intros key' Hin.
    pose proof factor_keys_fixed as Hall. rewrite forallb_forall in Hall.
    specialize (Hall _ Hin).
    destruct (_normalize_priority_code (Some key')) as [key2|]; [| discriminate Hall].
    apply String.eqb_eq in Hall. subst key2. reflexivity.
Qed.

Lemma normalize_priority_code_idempotent_witness :
  In "salary_score"%string factor_keys /\
  _normalize_priority_code (Some "salary_score"%string) = Some "salary_score"%string.
Proof.
  destruct (normalize_priority_code_idempotent (Some " Comp "%string) "salary_score"%string
              eq_refl) as (H1 & H2 & _).
  split; assumption.
Defined.

Lemma build_priority_order_facts (raw_codes : list (option string)) :
  build_priority_order raw_codes <> [] /\
  NoDup (build_priority_order raw_codes) /\
  (forall key, In key (build_priority_order raw_codes) -> In key factor_keys).
Proof.
  unfold build_priority_order.
  pose proof (keep_first_NoDup (omap _normalize_priority_code raw_codes)) as Hnd.
  assert (Hkeys : forall key, In key (keep_first (omap _normalize_priority_code raw_codes)) ->
                              In key factor_keys).
  { intros key Hin. apply (proj1 (keep_first_In _ _)) in Hin. apply (proj2 (list_elem_of_In _ _)) in Hin.
    apply (proj1 (list_elem_of_omap _ _ _)) in Hin as (raw & _ & Hraw).
    apply (normalize_priority_code_canonical raw), Hraw. }
  destruct (keep_first (omap _normalize_priority_code raw_codes)) as [|key order].
  - split; [discriminate |]. split.
    + apply (bool_decide_unpack _). vm_compute. exact I.
    + intros key Hin. vm_compute in Hin. vm_compute. tauto.
  - split; [discriminate |]. split; assumption.
Qed.

Lemma filter_seeker_twice {T} `{PriorityRow T} (table : list T) (seeker_id : Z) :
  List.filter (fun r => (col_job_seeker_id r =? seeker_id)%Z)
    (List.filter (fun r => (col_job_seeker_id r =? seeker_id)%Z) table)
  = List.filter (fun r => (col_job_seeker_id r =? seeker_id)%Z) table.
Proof.
  rewrite filter_twice. apply List.filter_ext. intros r. apply andb_diag.
Qed.

(** X18. Whatever the mapped class and the rows, the order fetched for a
    seeker is a usable priority list: it is never empty, it names each factor
    at most once, every name in it is one of the eight breakdown keys (so it
    has at most eight entries), and it is decided by the seeker's own rows
    alone. *)
Theorem fetch_priority_order_well_formed {T} `{PriorityRow T} (table : list T)
    (seeker_id : Z) :
  let order := _fetch_priority_order table seeker_id in
  order <> [] /\
  NoDup order /\
  (forall key, In key order -> In key factor_keys) /\
  (length order <= 8)%nat /\
  order = _fetch_priority_order
            (List.filter (fun r => (col_job_seeker_id r =? seeker_id)%Z) table) seeker_id.
Proof.
  cbv zeta. rewrite fetch_priority_order_build.
  destruct (build_priority_order_facts
              (List.map raw_code_of (query_priorities table seeker_id)))
    as (Hne & Hnd & Hkeys).
  split; [exact Hne |]. split; [exact Hnd |]. split; [exact Hkeys |]. split.
  - change 8%nat with (length factor_keys). apply submseteq_length.
    apply NoDup_submseteq; [exact Hnd |].
    intros key Hin. apply list_elem_of_In. apply Hkeys. apply list_elem_of_In. exact Hin.
  - rewrite fetch_priority_order_build. unfold query_priorities.
    rewrite filter_seeker_twice. reflexivity.
Qed.

(** ** The matching endpoints *)

Lemma router_experience_entry (model : SbertModel) (today : date) (seeker : JobSeeker.t)
    (db : Session) (jobdata : JobData.t) :
  exists value,
    Py.dict_get "experience_score"
      (score_breakdown model (_resolve_candidate_from_db today seeker db) jobdata)
    = Some value /\ (value == 0)%Q.
Proof.
  rewrite score_breakdown_entries. eexists. split; [reflexivity |].
  unfold experience_score. cbn [_resolve_candidate_from_db CandidateData.experience_years].
  vm_compute. reflexivity.
Qed.

(** X19. [POST /match/by-id] answers 404 with its own message exactly when the
    seeker or the posting is missing. When both exist, a posting with a NULL
    title makes the construction of the schema values raise. Whenever the
    endpoint answers, it answers what [POST /match/] answers on the resolved
    pair, and the [experience_score] of its breakdown is 0, since the
    candidate is built with 0 years of experience. *)
Theorem match_by_id_endpoint_outcomes (model : SbertModel) (today : date)
    (float_str : Q -> string) (req : MatchByIdRequest.t) (db : Session) :
  let answer := match_by_id model today float_str req db in
  (answer = HTTPException 404 "job_seeker or job_posting not found"
   <-> get_job_seeker db (MatchByIdRequest.job_seeker_id req) = None \/
       get_job_posting db (MatchByIdRequest.job_posting_id req) = None) /\
  (forall seeker job,
      get_job_seeker db (MatchByIdRequest.job_seeker_id req) = Some seeker ->
      get_job_posting db (MatchByIdRequest.job_posting_id req) = Some job ->
      JobPosting.title job = None ->
      exists msg, answer = Unhandled (ValueError msg)) /\
  (forall resp,
      answer = Respond resp ->
      exists seeker job jobdata value,
        get_job_seeker db (MatchByIdRequest.job_seeker_id req) = Some seeker /\
        get_job_posting db (MatchByIdRequest.job_posting_id req) = Some job /\
        JobData_of_dict (_resolve_job_from_db today job) = Ok jobdata /\
        resp = match_job model float_str
                 {| MatchRequest.candidate := _resolve_candidate_from_db today seeker db;
                    MatchRequest.job := jobdata |} /\
        Py.dict_get "experience_score" (breakdown resp) = Some value /\
        (value == 0)%Q).
Proof.
  cbv zeta. unfold match_by_id.
  destruct (get_job_seeker db (MatchByIdRequest.job_seeker_id req)) as [seeker|] eqn:Hs;
    destruct (get_job_posting db (MatchByIdRequest.job_posting_id req)) as [job|] eqn:Hj.
  - destruct (JobData_of_dict (_resolve_job_from_db today job)) as [jobdata|e] eqn:Hdata.
    + split; [split; [discriminate | intros [H|H]; discriminate H] |]. split.
      * intros seeker' job' _ [= <-] Htitle. exfalso.
        unfold JobData_of_dict in Hdata.
        cbn [_resolve_job_from_db JobDict.job_title] in Hdata.
        rewrite Htitle in Hdata. discriminate Hdata.
      * intros resp Hresp.
        destruct (router_experience_entry model today seeker db jobdata) as (value & Hv & Hz).
        exists seeker, job, jobdata, value.
        split; [reflexivity |]. split; [reflexivity |]. split; [exact Hdata |].
        unfold match_score_logic in Hresp. cbv zeta in Hresp. injection Hresp as <-.
        split; [reflexivity |]. split; [exact Hv | exact Hz].
    + split; [split; [discriminate | intros [H|H]; discriminate H] |]. split.
      * intros seeker' job' _ _ _.
        unfold JobData_of_dict in Hdata.
        destruct (JobDict.job_title (_resolve_job_from_db today job)); [discriminate Hdata |].
        injection Hdata as <-. eexists. reflexivity.
      * intros resp Hresp. discriminate Hresp.
  - split; [split; [intros _; right; reflexivity | reflexivity] |]. split.
    + intros seeker' job' _ H. discriminate H.
    + intros resp H. discriminate H.
  - split; [split; [intros _; left; reflexivity | reflexivity] |]. split.
    + intros seeker' job' H. discriminate H.
    + intros resp H. discriminate H.
  - split; [split; [intros _; left; reflexivity | reflexivity] |]. split.
    + intros seeker' job' H. discriminate H.
    + intros resp H. discriminate H.
Qed.

Lemma match_by_id_endpoint_outcomes_witness :
  exists resp value,
    match_by_id None 0%Z sample_float_str (MatchByIdRequest.mk 1 11)
      (sample_db sample_catalog [])
    = Respond resp /\
    Py.dict_get "experience_score" (breakdown resp) = Some value /\
    (value == 0)%Q.
Proof.
  eexists.
  destruct (match_by_id_endpoint_outcomes None 0%Z sample_float_str (MatchByIdRequest.mk 1 11)
              (sample_db sample_catalog [])) as (_ & _ & H).
  destruct (H _ eq_refl) as (seeker & job & jobdata & value & _ & _ & _ & _ & Hv & Hz).
  exists value. split; [reflexivity |]. split; [exact Hv | exact Hz].
Defined.

(** X20. The two id-based endpoints go together: [POST /match/by-id-with-reason]
    fails exactly as [POST /match/by-id] does, and when they answer, the
    score, the message and the breakdown are the same; the explanation is
    extra and changes none of them. *)
Theorem match_by_id_with_reason_same_score (model : SbertModel) (today : date)
    (float_str : Q -> string) (generate_match_reason : string -> string)
    (req : MatchByIdRequest.t) (db : Session) :
  match match_by_id model today float_str req db,
        match_by_id_with_reason model today float_str generate_match_reason req db with
  | Respond plain, Respond explained =>
      wr_match_score explained = match_score plain /\
      wr_message explained = message plain /\
      wr_breakdown explained = breakdown plain
  | HTTPException status_code detail, HTTPException status_code' detail' =>
      status_code' = status_code /\ detail' = detail
  | Unhandled e, Unhandled e' => e' = e
  | _, _ => False
  end.
Proof.
  unfold match_by_id, match_by_id_with_reason.
  destruct (get_job_seeker db (MatchByIdRequest.job_seeker_id req)) as [seeker|];
    destruct (get_job_posting db (MatchByIdRequest.job_posting_id req)) as [job|];
    try (split; reflexivity).
  destruct (JobData_of_dict (_resolve_job_from_db today job)) as [jobdata|e];
    [| reflexivity].
  cbn [match_score_logic]. repeat split.
Qed.

(** ** The ranking endpoints *)

Lemma or_int_top_k (top_k : Z) :
  or_int (Some top_k) 10 = if (top_k =? 0)%Z then 10%Z else top_k.
Proof. reflexivity. Qed.

(** X21. [POST /match/rankings] answers 404 with the message of the service
    exactly when the seeker is missing. It answers a ranking exactly when the
    service does, asked with a [top_k] of 10 where the request says 0: the
    answer then holds min(max(1, top_k), catalog size) jobs, up to ten for
    [top_k = 0]. *)
Theorem get_rankings_outcomes (model : SbertModel) (today : date)
    (req : MatchRankingRequest.t) (db : Session) :
  let answer := get_rankings model today req db in
  let top_k := if (MatchRankingRequest.top_k req =? 0)%Z then 10%Z
               else MatchRankingRequest.top_k req in
  (answer = HTTPException 404 "job_seeker not found"
   <-> get_job_seeker db (MatchRankingRequest.job_seeker_id req) = None) /\
  (forall resp,
      answer = Respond resp
      <-> rank_jobs_for_seeker_service model today (MatchRankingRequest.job_seeker_id req)
            db top_k = Ok resp) /\
  (forall resp,
      answer = Respond resp ->
      length (results resp)
      = Nat.min (Z.to_nat (Z.max 1 top_k)) (length (job_postings db))).
Proof.
  cbv zeta. unfold get_rankings, ranking_or_http. rewrite or_int_top_k.
  unfold rank_jobs_for_seeker_service.
  destruct (get_job_seeker db (MatchRankingRequest.job_seeker_id req)) as [seeker|].
  - split; [split; discriminate |]. split.
    + intros resp. split; intros [= <-]; reflexivity.
    + intros resp [= <-].
      cbn [results]. rewrite length_firstn. unfold sort_by_score_desc.
      rewrite stable_sort_length, length_map. reflexivity.
  - split; [split; reflexivity |]. split.
    + intros resp. split; intros H; discriminate H.
    + intros resp H. discriminate H.
Qed.

Lemma get_rankings_outcomes_witness :
  exists resp,
    get_rankings None 0%Z (MatchRankingRequest.mk 1 0) (sample_db sample_catalog [])
    = Respond resp /\
    length (results resp) = 4%nat.
Proof.
  eexists.
  destruct (get_rankings_outcomes None 0%Z (MatchRankingRequest.mk 1 0)
              (sample_db sample_catalog [])) as (_ & _ & H).
  split; [reflexivity |]. exact (H _ eq_refl).
Defined.

Lemma or_int_to_man (y : option Z) : or_int (_to_man y) 0 = (or_default y 0 / 10000)%Z.
Proof.
  destruct y as [y|]; [| reflexivity]. cbn [_to_man or_int or_default].
  destruct (Z.eqb_spec (y / 10000) 0) as [E|_]; [symmetry; exact E | reflexivity].
Qed.

Lemma top_keys_length (breakdown : list (string * Q)) :
  length (_top_keys (Some breakdown)) = Nat.min 5 (length breakdown).
Proof.
  unfold _top_keys. destruct breakdown as [|kv breakdown]; [reflexivity |].
  rewrite length_map, length_firstn, stable_sort_length. reflexivity.
Qed.

Lemma find_some_id (postings : list JobPosting.t) (job : JobPosting.t) :
  In job postings ->
  exists jp, List.find (fun j => (JobPosting.id j =? JobPosting.id job)%Z) postings = Some jp.
Proof.
  intros Hin.
  destruct (List.find (fun j => (JobPosting.id j =? JobPosting.id job)%Z) postings)
    as [jp|] eqn:E; [exists jp; reflexivity |].
  exfalso. pose proof (find_none _ _ E job Hin) as H. cbv beta in H.
  rewrite Z.eqb_refl in H. discriminate H.
Qed.

Lemma matched_job_shown (model : SbertModel) (today : date)
    (split_sentences : string -> list string) (company_of : JobPosting.t -> option Company.t)
    (db : Session) (candidate : CandidateData.t) (job : JobPosting.t) :
  In job (job_postings db) ->
  exists entry,
    matched_job split_sentences company_of db (score_job model today candidate job) = Some entry /\
    shown_as db (score_job model today candidate job) entry.
Proof.
  intros Hin. unfold matched_job.
  assert (Hid : job_posting_id (score_job model today candidate job) = JobPosting.id job)
    by reflexivity.
  rewrite Hid. unfold get_job_posting.
  destruct (find_some_id _ _ Hin) as (jp & Hjp). rewrite Hjp.
  apply find_some in Hjp as Hfound. destruct Hfound as [_ Hsame]. apply Z.eqb_eq in Hsame.
  cbn [_to_man]. eexists. split; [reflexivity |].
  unfold shown_as.
  cbn [MatchedJob.id MatchedJob.matchingScore MatchedJob.matchingReasons MatchedJob.benefits
       MatchedJob.requirements MatchedJob.salary_max MatchedJob.salary_min _reason_to_list].
  rewrite Hid, !or_int_to_man.
  split; [exact Hsame |]. split; [reflexivity |]. split; [reflexivity |].
  split; [reflexivity |]. split.
  - rewrite top_keys_length. reflexivity.
  - split.
    + destruct (JobPosting.salary jp) as [y|]; cbn [_to_man or_int or_default];
        [| reflexivity].
      destruct (y / 10000 =? 0)%Z; reflexivity.
    + exists jp. split; [exact Hjp | reflexivity].
Qed.

Lemma omap_shown {A B} (f : A -> option B) (R : A -> B -> Prop) (l : list A) :
  (forall x, In x l -> exists y, f x = Some y /\ R x y) ->
  Forall2 R l (omap f l).
Proof.
  induction l as [|x l IH]; intros H; [constructor |].
  cbn [omap list_omap]. destruct (H x (or_introl eq_refl)) as (y & -> & Hy).
  constructor; [exact Hy |]. apply IH. intros x' Hx'. apply H. right. exact Hx'.
Qed.

(** X22. [POST /match/rank-ui] answers 404 with the message of the service
    exactly when the seeker is missing. Whenever it answers, it shows the
    ranking of [POST /match/rankings] entry by entry, in the same order and
    skipping none: each entry carries the id and the score of its ranking
    item, no reasons and no benefits, five requirement labels, and one salary
    figure for both ends of the range, the posting's salary in units of ten
    thousand, rounded down (0 for a NULL salary). *)
Theorem rank_ui_shows_ranking (model : SbertModel) (today : date)
    (split_sentences : string -> list string) (company_of : JobPosting.t -> option Company.t)
    (req : MatchRankingRequest.t) (db : Session) :
  (rank_ui model today split_sentences company_of req db
   = HTTPException 404 "job_seeker not found"
   <-> get_job_seeker db (MatchRankingRequest.job_seeker_id req) = None) /\
  (forall entries,
      rank_ui model today split_sentences company_of req db = Respond entries ->
      exists ranking,
        get_rankings model today req db = Respond ranking /\
        Forall2 (shown_as db) (results ranking) entries).
Proof.
  unfold rank_ui, get_rankings, ranking_or_http, rank_jobs_for_seeker_service.
  destruct (get_job_seeker db (MatchRankingRequest.job_seeker_id req)) as [seeker|].
  - split; [split; discriminate |].
    intros entries [= <-]. eexists. split; [reflexivity |].
    cbn [results]. apply omap_shown. intros it Hin.
    apply In_firstn in Hin.
    apply (Permutation_in _ (stable_sort_perm _ _)) in Hin.
    apply in_map_iff in Hin as (job & <- & Hjob).
    apply matched_job_shown, Hjob.
  - split; [split; reflexivity |]. intros entries H. discriminate H.
Qed.

Lemma rank_ui_shows_ranking_witness :
  exists ranking entries,
    get_rankings None 0%Z (MatchRankingRequest.mk 1 2) (sample_db sample_catalog [])
    = Respond ranking /\
    rank_ui None 0%Z (fun txt => [txt]) (fun _ => None) (MatchRankingRequest.mk 1 2)
      (sample_db sample_catalog [])
    = Respond entries /\
    length entries = length (results ranking).
Proof.
  destruct (rank_ui_shows_ranking None 0%Z (fun txt => [txt]) (fun _ => None)
              (MatchRankingRequest.mk 1 2) (sample_db sample_catalog [])) as [_ H].
  destruct (H _ eq_refl) as (ranking & Hranking & Hshown).
  exists ranking. eexists. split; [exact Hranking |]. split; [reflexivity |].
  symmetry. exact (Forall2_length _ _ _ Hshown).
Defined.

(** ** The job posting endpoints *)

Lemma StronglySorted_skipn {A} (R : A -> A -> Prop) (n : nat) (l : list A) :
  StronglySorted R l -> StronglySorted R (skipn n l).
Proof.
  revert l. induction n as [|n IH]; intros l H; [exact H |].
  destruct l as [|x l]; [constructor |].
  cbn [skipn]. apply IH. apply StronglySorted_inv in H as [H _]. exact H.
Qed.

Lemma postings_by_id_desc_sorted (postings : list JobPosting.t) :
  StronglySorted (fun a b => (JobPosting.id b <= JobPosting.id a)%Z)
    (stable_sort (fun y x => (JobPosting.id x <? JobPosting.id y)%Z) postings).
Proof.
  eapply StronglySorted_weaken;
    [| apply (stable_sort_sorted (fun y x => (JobPosting.id x <? JobPosting.id y)%Z))].
  - intros a b H. unfold may_precede in H. apply Z.ltb_ge in H. exact H.
  - intros a b H. apply Z.ltb_lt in H. apply Z.ltb_ge. lia.
  - unfold may_precede. intros a b c H1 H2. apply Z.ltb_ge in H1, H2. apply Z.ltb_ge. lia.
Qed.

Lemma list_job_postings_In (db : Session) (limit offset : Z) (job : JobPosting.t) :
  In job (list_job_postings db limit offset) -> In job (job_postings db).
Proof.
  unfold list_job_postings. intros H. apply In_firstn in H.
  rewrite <- (firstn_skipn (Z.to_nat offset)) in H.
  assert (H' : In job (stable_sort (fun y x => (JobPosting.id x <? JobPosting.id y)%Z)
                         (job_postings db))).
  { rewrite <- (firstn_skipn (Z.to_nat offset)). apply in_or_app. right.
    rewrite <- (firstn_skipn (Z.to_nat offset)
                  (skipn (Z.to_nat offset)
                     (stable_sort (fun y x => (JobPosting.id x <? JobPosting.id y)%Z)
                        (job_postings db)))).
    exact H. }
  apply (Permutation_in _ (stable_sort_perm _ _)) in H'. exact H'.
Qed.

(** X23. [GET /job_postings/], for a [limit] from 1 to 100 and an [offset] of
    at least 0 as the endpoint admits them: the page is in descending order of
    id, it holds min(limit, catalog size - offset) postings of the catalog,
    never more than 100, and the page that starts where this one ends
    continues it: both together are the page of [limit + limit'] postings at
    the same [offset]. *)
Theorem list_job_postings_page (db : Session) (limit offset : Z) :
  (1 <= limit <= 100)%Z ->
  (0 <= offset)%Z ->
  let page := list_job_postings db limit offset in
  StronglySorted (fun a b => (JobPosting.id b <= JobPosting.id a)%Z) page /\
  length page = Nat.min (Z.to_nat limit) (length (job_postings db) - Z.to_nat offset) /\
  (length page <= 100)%nat /\
  (forall job, In job page -> In job (job_postings db)) /\
  (forall limit', (1 <= limit')%Z ->
                  page ++ list_job_postings db limit' (offset + limit)
                  = list_job_postings db (limit + limit') offset).
Proof.
  intros Hlimit Hoffset. cbv zeta.
  assert (Hlen : length (list_job_postings db limit offset)
                 = Nat.min (Z.to_nat limit) (length (job_postings db) - Z.to_nat offset)).
  { unfold list_job_postings. rewrite length_firstn, length_skipn, stable_sort_length.
    reflexivity. }
  split; [| split; [exact Hlen | split; [| split]]].
  - unfold list_job_postings. apply StronglySorted_firstn, StronglySorted_skipn.
    apply postings_by_id_desc_sorted.
  - rewrite Hlen. lia.
  - intros job. apply list_job_postings_In.
  - intros limit' Hlimit'. unfold list_job_postings.
    rewrite !Z2Nat.inj_add by lia.
    rewrite <- (drop_drop _ (Z.to_nat limit) (Z.to_nat offset)).
    apply take_take_drop.
Qed.

Lemma list_job_postings_page_witness :
  List.map JobPosting.id (list_job_postings (sample_db sample_catalog []) 2 1) = [12; 11]%Z /\
  list_job_postings (sample_db sample_catalog []) 2 1
    ++ list_job_postings (sample_db sample_catalog []) 1 3
  = list_job_postings (sample_db sample_catalog []) 3 1.
Proof.
  destruct (list_job_postings_page (sample_db sample_catalog []) 2 1 ltac:(lia) ltac:(lia))
    as (_ & _ & _ & _ & H).
  split; [vm_compute; reflexivity | apply (H 1%Z); lia].
Defined.

Lemma find_none_iff {A} (f : A -> bool) (l : list A) :
  List.find f l = None <-> forall x, In x l -> f x = false.
Proof.
  split; [apply find_none |].
  intros H. destruct (List.find f l) as [x|] eqn:E; [| reflexivity].
  apply find_some in E as [Hin Hx]. rewrite (H x Hin) in Hx. discriminate Hx.
Qed.

(** X24. [GET /job_postings/{job_id}] answers 404 exactly when no posting has
    the id, and a posting it answers has the id asked for. With unique ids,
    every posting on a page of [GET /job_postings/] is the one read back under
    its id. *)
Theorem read_job_posting_outcomes (db : Session) (job_id : Z) :
  (read_job_posting job_id db = HTTPException 404 "Job posting not found"
   <-> forall job, In job (job_postings db) -> JobPosting.id job <> job_id) /\
  (forall job, read_job_posting job_id db = Respond job ->
               JobPosting.id job = job_id /\ In job (job_postings db)) /\
  (NoDup (List.map JobPosting.id (job_postings db)) ->
   forall limit offset job,
     In job (list_job_postings db limit offset) ->
     read_job_posting (JobPosting.id job) db = Respond job).
Proof.
  unfold read_job_posting. split; [| split].
  - unfold get_job_posting.
    destruct (List.find (fun j => (JobPosting.id j =? job_id)%Z) (job_postings db))
      as [job|] eqn:E.
    + split; [discriminate |]. intros H. exfalso.
      apply find_some in E as [Hin Hid]. apply Z.eqb_eq in Hid. exact (H job Hin Hid).
    + split; [| reflexivity]. intros _ job Hin Hid.
      pose proof (find_none _ _ E job Hin) as H. cbv beta in H.
      apply Z.eqb_neq in H. exact (H Hid).
  - intros job H.
    destruct (get_job_posting db job_id) as [job'|] eqn:E; [| discriminate H].
    injection H as <-. apply get_job_posting_id, E.
  - intros Hnd limit offset job Hin. apply list_job_postings_In in Hin.
    unfold get_job_posting. rewrite (find_unique_posting _ job Hnd Hin). reflexivity.
Qed.

Lemma read_job_posting_outcomes_witness :
  read_job_posting 12 (sample_db sample_catalog [])
  = Respond (sample_posting 12 "frontend designer" "Osaka" 300).
Proof.
  destruct (read_job_posting_outcomes (sample_db sample_catalog []) 12) as (_ & _ & H).
  apply (H ltac:(apply (bool_decide_unpack _); vm_compute; exact I) 2%Z 1%Z
           (sample_posting 12 "frontend designer" "Osaka" 300)).
  vm_compute. left. reflexivity.
Defined.
